(** * recall_boots: article-number extraction, cross-document matching
      and report building ([what.py])

    A shallow embedding of the three core functions of [what.py]:
    [extract_article_numbers], [find_matching_descriptions] and
    [save_to_pdf], with the properties of the design notes stated and
    proved (or refuted) against them.

    Modelling conventions
    - Text is [string]; a character is a code point below 256, so the
      Unicode classes that Python's [re] and [str.strip] consult are
      written out for that range.
    - A Python [set] that is only tested, grown and measured
      ([found_articles], [matched_numbers]) is a [gset string].  The set
      [article_numbers] is also iterated, so it is the list of its
      elements in the set's iteration order (duplicate free).
    - A read failure of the PDF collaborator is an exception that no
      function of the file catches: it is the [Raised] result.
    - [save_to_pdf] assigns the module-level variable [not_found] and
      writes a file: both live in an explicit [world]. *)

From Stdlib Require Import Ascii NArith Sorting.Sorted.
From stdpp Require Import gmap strings list sorting.

(* stdpp's solvers clear hypotheses that are already gone. *)
Set Warnings "-clear-no-such-hyp".

Local Open Scope N_scope.

(** ** Characters *)

Module Char.

Definition code (c : ascii) : N := N_of_ascii c.

Definition between (lo hi : N) (c : ascii) : bool :=
  (lo <=? code c) && (code c <=? hi).

(** [\d] on [str] patterns: the decimal digits; below 256 these are
    ['0'..'9'] only. *)
Definition is_digit (c : ascii) : bool := between 48 57 c.

(** [\w] on [str] patterns: alphanumerics and the underscore; below 256
    beside ASCII these are the Latin-1 letters, ordinal indicators,
    micro sign, superscript digits and vulgar fractions. *)
Definition is_word (c : ascii) : bool :=
  between 48 57 c || between 65 90 c || (code c =? 95) || between 97 122 c
  || (code c =? 170) || between 178 179 c || (code c =? 181)
  || between 185 186 c || between 188 190 c || between 192 214 c
  || between 216 246 c || between 248 255 c.

(** [str.isspace], as used by [str.strip]. *)
Definition is_space (c : ascii) : bool :=
  between 9 13 c || between 28 32 c || (code c =? 133) || (code c =? 160).

Definition digit_value (c : ascii) : N := code c - 48.

(** [str.lower] on one character: below 256 the capitals ['A'..'Z'] and
    the Latin-1 capitals (the multiplication sign apart) move up by 32. *)
Definition lower (c : ascii) : ascii :=
  if between 65 90 c || between 192 214 c || between 216 222 c
  then ascii_of_N (code c + 32) else c.

End Char.

(** ** Strings *)

Module Str.

Definition head (s : string) : option ascii :=
  match s with
  | EmptyString => None
  | String c _ => Some c
  end.

(** The last character of [s], or [prev] for the empty string: the
    character that stands before the position reached after reading [s]
    when [prev] stood before its start. *)
Fixpoint last_from (prev : option ascii) (s : string) : option ascii :=
  match s with
  | EmptyString => prev
  | String c r => last_from (Some c) r
  end.

(** [strip_prefix p s] is the rest of [s] after its prefix [p]. *)
Fixpoint strip_prefix (p s : string) : option string :=
  match p, s with
  | EmptyString, _ => Some s
  | String a p', String b s' =>
      if Ascii.eqb a b then strip_prefix p' s' else None
  | String _ _, EmptyString => None
  end.

Fixpoint all_chars (f : ascii → bool) (s : string) : bool :=
  match s with
  | EmptyString => true
  | String c r => f c && all_chars f r
  end.

(** [text.split("\n")]: the pieces between line feeds, the last piece
    included also when it is empty. *)
Fixpoint split_lines (s : string) : list string :=
  match s with
  | EmptyString => [EmptyString]
  | String c r =>
      if Ascii.eqb c "010"%char then EmptyString :: split_lines r
      else match split_lines r with
           | [] => [String c EmptyString]
           | l :: ls => String c l :: ls
           end
  end.

Fixpoint lstrip (s : string) : string :=
  match s with
  | EmptyString => EmptyString
  | String c r => if Char.is_space c then lstrip r else s
  end.

Fixpoint rstrip (s : string) : string :=
  match s with
  | EmptyString => EmptyString
  | String c r =>
      match rstrip r with
      | EmptyString => if Char.is_space c then EmptyString
                       else String c EmptyString
      | r' => String c r'
      end
  end.

Fixpoint lower (s : string) : string :=
  match s with
  | EmptyString => EmptyString
  | String c r => String (Char.lower c) (lower r)
  end.

(** [s.endswith(suffix)] *)
Fixpoint endswith (s suffix : string) : bool :=
  String.eqb s suffix
  || match s with
     | EmptyString => false
     | String _ r => endswith r suffix
     end.

(** [line.strip()] *)
Definition strip (s : string) : string := rstrip (lstrip s).

(** [int(s)] for a string of decimal digits. *)
Fixpoint int_from (acc : N) (s : string) : N :=
  match s with
  | EmptyString => acc
  | String c r => int_from (10 * acc + Char.digit_value c) r
  end.

Definition int (s : string) : N := int_from 0 s.

End Str.

(** ** The regular expressions of [what.py]

    Three patterns occur: [\b1\d{5}\b] (with [re.findall]),
    [\b(\d{6})\b] (with [re.search]) and [\b{number}\b] (with
    [re.search], [number] interpolated). *)

Module Re.

Definition word_at (c : option ascii) : bool :=
  match c with
  | Some a => Char.is_word a
  | None => false
  end.

(** [\b] between the character [prev] before a position and the
    character [next] at it ([None] at the ends of the string). *)
Definition boundary (prev next : option ascii) : bool :=
  xorb (word_at prev) (word_at next).

(** The six-character token [\b c0 \d{5} \b] anchored at the start of [s],
    [first_ok] deciding the first character. *)
Definition token_here (first_ok : ascii → bool) (prev : option ascii)
    (s : string) : option string :=
  match s with
  | String c0 (String c1 (String c2 (String c3 (String c4 (String c5 rest))))) =>
      if boundary prev (Some c0) && first_ok c0
         && Char.is_digit c1 && Char.is_digit c2 && Char.is_digit c3
         && Char.is_digit c4 && Char.is_digit c5
         && boundary (Some c5) (Str.head rest)
      then Some (String c0 (String c1 (String c2 (String c3 (String c4
                   (String c5 EmptyString))))))
      else None
  | _ => None
  end.

Definition is_one (c : ascii) : bool := Ascii.eqb c "1"%char.

(** [re.findall(r'\b1\d{5}\b', line)], scanning from a position with
    [prev] before it; after a match the scan resumes behind the match, so
    [skip] counts the characters still to be passed over. *)
Fixpoint findall_from (skip : nat) (prev : option ascii) (s : string)
    : list string :=
  match s with
  | EmptyString => []
  | String c r =>
      match skip with
      | S k => findall_from k (Some c) r
      | O =>
          match token_here is_one prev s with
          | Some m => m :: findall_from 5 (Some c) r
          | None => findall_from 0 (Some c) r
          end
      end
  end.

Definition findall_article (line : string) : list string :=
  findall_from 0 None line.

(** [re.search(r'\b(\d{6})\b', line)]: group 1 of the leftmost match. *)
Fixpoint search_six_from (prev : option ascii) (s : string) : option string :=
  match token_here Char.is_digit prev s with
  | Some m => Some m
  | None =>
      match s with
      | EmptyString => None
      | String c r => search_six_from (Some c) r
      end
  end.

Definition search_six (line : string) : option string :=
  search_six_from None line.

(** [\b{number}\b] anchored at the start of [s].  [number] stands for
    itself in the pattern, which is the case for every string of word
    characters, so for every article number. *)
Definition number_here (number : string) (prev : option ascii) (s : string)
    : bool :=
  match Str.strip_prefix number s with
  | Some rest =>
      boundary prev (Str.head s)
      && boundary (Str.last_from prev number) (Str.head rest)
  | None => false
  end.

(** [re.search(rf'\b{number}\b', line)] as a truth value. *)
Fixpoint search_number_from (number : string) (prev : option ascii)
    (s : string) : bool :=
  number_here number prev s
  || match s with
     | EmptyString => false
     | String c r => search_number_from number (Some c) r
     end.

Definition search_number (number line : string) : bool :=
  search_number_from number None line.

End Re.

(** ** Documents, as the PDF reader collaborator presents them *)

(** The exception that the collaborator raises on a file or page that it
    cannot parse. *)
Inductive error := ReadError.

(** The outcome of a call: a value, or an exception that leaves it. *)
Inductive run (A : Type) :=
  | Returned (a : A)
  | Raised (e : error).
Arguments Returned {A} a.
Arguments Raised {A} e.

(** [page.extract_text()] yields the text (possibly empty) or fails. *)
Inductive page :=
  | PageText (text : string)
  | PageUnreadable.

(** [PdfReader(path)] fails, or gives the pages in document order. *)
Inductive document :=
  | Readable (pages : list page)
  | Unreadable.

(** A directory: the names in [os.listdir] order, each with its file. *)
Definition folder := list (string * document).

(** ** [extract_article_numbers] *)

Definition extract_line (article_numbers : gset string) (line : string)
    : gset string :=
  list_to_set (Re.findall_article line) ∪ article_numbers.

Definition extract_text (article_numbers : gset string) (text : string)
    : gset string :=
  foldl extract_line article_numbers (Str.split_lines text).

Fixpoint extract_pages (pages : list page) (article_numbers : gset string)
    : run (gset string) :=
  match pages with
  | [] => Returned article_numbers
  | PageUnreadable :: _ => Raised ReadError
  | PageText text :: rest =>
      if String.eqb text "" then extract_pages rest article_numbers
      else extract_pages rest (extract_text article_numbers text)
  end.

Definition extract_article_numbers (pdf : document) : run (gset string) :=
  match pdf with
  | Unreadable => Raised ReadError
  | Readable pages => extract_pages pages ∅
  end.

(** ** [find_matching_descriptions] *)

(** The two accumulators of the search. *)
Record search := Search {
  matches : list string;
  found_articles : gset string
}.

(** The loop over [article_numbers] for one line: numbers already found
    are passed over, the first other number that the line holds records the
    line and ends the loop. *)
Fixpoint check_numbers (numbers : list string) (line : string) (st : search)
    : search :=
  match numbers with
  | [] => st
  | number :: rest =>
      if decide (number ∈ found_articles st) then check_numbers rest line st
      else if Re.search_number number line
      then Search (matches st ++ [Str.strip line])
                  ({[number]} ∪ found_articles st)
      else check_numbers rest line st
  end.

(** [len(found_articles) == len(article_numbers)] *)
Definition all_found (article_numbers : list string) (st : search) : bool :=
  Nat.eqb (size (found_articles st)) (length article_numbers).

(** The loop over the lines of one page, left once everything is found. *)
Fixpoint scan_lines (article_numbers : list string) (lines : list string)
    (st : search) : search :=
  match lines with
  | [] => st
  | line :: rest =>
      let st' := check_numbers article_numbers line st in
      if all_found article_numbers st' then st'
      else scan_lines article_numbers rest st'
  end.

(** The loop over the pages of one document; it has no exit of its own. *)
Fixpoint scan_pages (article_numbers : list string) (pages : list page)
    (st : search) : run search :=
  match pages with
  | [] => Returned st
  | PageUnreadable :: _ => Raised ReadError
  | PageText text :: rest =>
      if String.eqb text "" then scan_pages article_numbers rest st
      else scan_pages article_numbers rest
             (scan_lines article_numbers (Str.split_lines text) st)
  end.

(** [filename.lower().endswith(".pdf") and filename != source_pdf_name] *)
Definition is_candidate (source_pdf_name filename : string) : bool :=
  Str.endswith (Str.lower filename) ".pdf"
  && negb (String.eqb filename source_pdf_name).

(** The loop over the directory, left after a document once everything is
    found. *)
Fixpoint scan_folder (article_numbers : list string) (source_pdf_name : string)
    (files : folder) (st : search) : run search :=
  match files with
  | [] => Returned st
  | (filename, pdf) :: rest =>
      if is_candidate source_pdf_name filename then
        match pdf with
        | Unreadable => Raised ReadError
        | Readable pages =>
            match scan_pages article_numbers pages st with
            | Raised e => Raised e
            | Returned st' =>
                if all_found article_numbers st' then Returned st'
                else scan_folder article_numbers source_pdf_name rest st'
            end
        end
      else scan_folder article_numbers source_pdf_name rest st
  end.

Definition find_matching_descriptions (article_numbers : list string)
    (folder_path : folder) (source_pdf_name : string) : run search :=
  scan_folder article_numbers source_pdf_name folder_path (Search [] ∅).

(** ** [sorted(..., key=...)]

    Python's [sorted] is stable and compares keys with [<] only.  A stable
    sort has one possible result, so the insertion sort below, which never
    moves an element past one whose key is not smaller, computes it. *)

Section StableSort.
Context {A K : Type} (lt : K → K → bool) (key : A → K).

Fixpoint insert_by (x : A) (l : list A) : list A :=
  match l with
  | [] => [x]
  | y :: l' => if lt (key y) (key x) then y :: insert_by x l' else x :: l
  end.

Definition sorted_by (l : list A) : list A := foldr insert_by [] l.

(** [x] may stand before [y]: the key of [y] is not smaller. *)
Definition not_after (x y : A) : Prop := lt (key y) (key x) = false.
End StableSort.

(** ** [save_to_pdf] *)

(** A sort key of [get_article_number]: an [int], or [float('inf')]. *)
Inductive sort_key :=
  | KInt (n : N)
  | KInf.

(** [k1 < k2] on such keys. *)
Definition key_lt (k1 k2 : sort_key) : bool :=
  match k1, k2 with
  | KInt a, KInt b => a <? b
  | KInt _, KInf => true
  | KInf, _ => false
  end.

Definition get_article_number (line : string) : sort_key :=
  match Re.search_six line with
  | Some m => KInt (Str.int m)
  | None => KInf
  end.

(** [all(num in found_articles for num in line_numbers)] *)
Definition all_numbers_found (found_articles : gset string) (line : string)
    : bool :=
  forallb (λ num, bool_decide (num ∈ found_articles))
          (Re.findall_article line).

Definition filtered_matches (matches : list string)
    (found_articles : gset string) : list string :=
  filter (λ line, all_numbers_found found_articles line) matches.

Definition sorted_matches (matches : list string)
    (found_articles : gset string) : list string :=
  sorted_by key_lt get_article_number (filtered_matches matches found_articles).

(** The loop that collects the first six-digit run of every sorted line. *)
Definition matched_numbers (lines : list string) : gset string :=
  foldl (λ acc line,
           match Re.search_six line with
           | Some m => {[m]} ∪ acc
           | None => acc
           end) ∅ lines.

(** [sorted(set(article_numbers) - matched_numbers, key=lambda x: int(x))],
    the difference enumerated in the order of [article_numbers]; the keys of
    distinct article numbers differ, so for them the enumeration order does
    not show in the result.  [int] is [Str.int]: the elements are taken to be
    strings of decimal digits, as those of the extractor are. *)
Definition unmatched (article_numbers : list string)
    (matched : gset string) : list string :=
  sorted_by N.ltb Str.int
    (filter (λ x, bool_decide (x ∉ matched)) article_numbers).

(** What the calls on the [FPDF] object amount to, in call order. *)
Inductive pdf_op :=
  | AddPage
  | SetFont (family style : string) (size : N)
  | SetTextColor (r g b : N)
  | Cell (txt : string)
  | MultiCell (txt : string)
  | Ln (h : N).

(** [PDF.header], called by [add_page]. *)
Definition header : list pdf_op :=
  [SetFont "Arial" "B" 12;
   Cell "Matched Frame Descriptions (Sorted by Article Number)";
   Ln 5].

Definition write_matched (lines : list string) : list pdf_op :=
  flat_map (λ line, [SetTextColor 0 0 0; MultiCell line]) lines.

Definition write_not_found (nfs : list string) : list pdf_op :=
  match nfs with
  | [] => []
  | _ =>
      [Ln 10; SetFont "Arial" "B" 10; SetTextColor 200 0 0;
       Cell "Articles NOT FOUND:"; SetFont "Arial" "" 10]
      ++ map (λ nf, Cell ("NOT FOUND: " +:+ nf)) nfs
  end.

Definition render (lines nfs : list string) : list pdf_op :=
  [AddPage] ++ header ++ [SetFont "Arial" "" 10]
  ++ write_matched lines ++ write_not_found nfs.

(** What [save_to_pdf] acts on beside its arguments: the module-level
    variable [not_found] (unbound until the first call) and the files. *)
Record world := World {
  not_found : option (list string);
  files : gmap string (list pdf_op)
}.

(** The function returns [output_path]; the unmatched list leaves it through
    the [global not_found] assignment only. *)
Definition save_to_pdf (matches : list string) (article_numbers : list string)
    (found_articles : gset string) (output_path : string) (w : world)
    : string * world :=
  let sorted := sorted_matches matches found_articles in
  let nf := unmatched article_numbers (matched_numbers sorted) in
  (output_path,
   World (Some nf) (<[output_path := render sorted nf]> (files w))).

(** ** The calls of [main] on the three functions *)

(** What [main] shows after the search: the returned path, the number of
    matches and the length of the global [not_found]. *)
Record shown := Shown {
  output_pdf_path : string;
  matched_count : nat;
  not_found_count : option nat
}.

Definition main_report (article_numbers : list string) (folder_path : folder)
    (w : world) : run (shown * world) :=
  match find_matching_descriptions article_numbers folder_path "main_pdf.pdf" with
  | Raised e => Raised e
  | Returned st =>
      let '(path, w') :=
        save_to_pdf (matches st) article_numbers (found_articles st)
                    "matched_frames.pdf" w in
      Returned (Shown path (length (matches st)) (length <$> not_found w'), w')
  end.

(** ** Vocabulary of the properties *)

(** An article number: six decimal digits, the first of them [1]. *)
Definition article_number (s : string) : Prop :=
  String.length s = 6%nat
  ∧ Str.all_chars Char.is_digit s = true
  ∧ Str.head s = Some "1"%char.

Definition digit_at (c : option ascii) : bool :=
  match c with
  | Some a => Char.is_digit a
  | None => false
  end.

(** [tok] stands in [line] with no character of the class [edge] next to it
    on either side (the ends of the line count as no character). *)
Definition occurs_between (edge : option ascii → bool) (tok line : string)
    : Prop :=
  ∃ pre post,
    line = pre +:+ tok +:+ post
    ∧ edge (Str.last_from None pre) = false
    ∧ edge (Str.head post) = false.

(** The lines that the extractor reads: those of the pages with text. *)
Definition text_lines (pages : list page) : list string :=
  flat_map (λ p, match p with
                 | PageText text =>
                     if String.eqb text "" then [] else Str.split_lines text
                 | PageUnreadable => []
                 end) pages.

Definition readable_pages (pages : list page) : Prop :=
  Forall (λ p, p ≠ PageUnreadable) pages.

#[global] Instance page_eq_dec : EqDecision page.
Proof. solve_decision. Defined.

#[global] Instance readable_pages_dec pages : Decision (readable_pages pages).
Proof. unfold readable_pages. apply _. Defined.

(** The found-set only grows from [st] to [st'], and stays within [S] if it
    was within it. *)
Definition grows_within (S : gset string) (st st' : search) : Prop :=
  found_articles st ⊆ found_articles st'
  ∧ (found_articles st ⊆ S → found_articles st' ⊆ S).

(** No two article numbers of the list are hit by the line. *)
Definition single_hit (article_numbers : list string) (line : string) : Prop :=
  ∀ n1 n2, n1 ∈ article_numbers → n2 ∈ article_numbers →
    Re.search_number n1 line = true → Re.search_number n2 line = true →
    n1 = n2.

(** The lines of the candidate documents of a directory. *)
Definition folder_lines (source_pdf_name : string) (files : folder)
    : list string :=
  flat_map (λ '(filename, pdf),
              if is_candidate source_pdf_name filename then
                match pdf with
                | Readable pages => text_lines pages
                | Unreadable => []
                end
              else []) files.

(** The body paragraphs of a rendered document: the texts of its
    [multi_cell] calls, in order. *)
Definition body_lines (ops : list pdf_op) : list string :=
  omap (λ op, match op with MultiCell txt => Some txt | _ => None end) ops.

(** Along the list, [R] holds from every element to every later one. *)
Definition ascending {A : Type} (R : A → A → Prop) (l : list A) : Prop :=
  ∀ i j x y, l !! i = Some x → l !! j = Some y → (i < j)%nat → R x y.

(** The order of the report's lines: by the number that the first six-digit
    run of a line spells, lines without such a run last. *)
Definition line_order (l1 l2 : string) : Prop :=
  match Re.search_six l1, Re.search_six l2 with
  | Some m1, Some m2 => Str.int m1 ≤ Str.int m2
  | _, None => True
  | None, Some _ => False
  end.

(** Some line of [lines] is hit by the number [n]. *)
Definition hit_in (lines : list string) (n : string) : Prop :=
  ∃ line, line ∈ lines ∧ Re.search_number n line = true.

(** Everything in the two accumulators comes from [lines]: a found number is
    one of the numbers given and hits a line, a recorded line is a line,
    stripped, that one of the found numbers hits. *)
Definition recorded_from (article_numbers lines : list string) (st : search)
    : Prop :=
  (∀ n, n ∈ found_articles st → n ∈ article_numbers ∧ hit_in lines n)
  ∧ (∀ l, l ∈ matches st →
          ∃ line n, line ∈ lines ∧ l = Str.strip line
                    ∧ n ∈ found_articles st
                    ∧ Re.search_number n line = true).

(** One recorded line per found number. *)
Definition balanced (st : search) : Prop :=
  length (matches st) = size (found_articles st).

(** The digit that a character shows. *)
Definition digit_of (c : ascii) : N :=
  match c with
  | "0" => 0 | "1" => 1 | "2" => 2 | "3" => 3 | "4" => 4
  | "5" => 5 | "6" => 6 | "7" => 7 | "8" => 8 | "9" => 9
  | _ => 0
  end%char.

(** The number that a string of digits spells in base ten: each digit
    weighs ten to the number of digits behind it. *)
Fixpoint decimal_value (s : string) : N :=
  match s with
  | EmptyString => 0
  | String c r => digit_of c * 10 ^ N.of_nat (String.length r) + decimal_value r
  end.

Definition six_digits (m : string) : Prop :=
  String.length m = 6%nat ∧ Str.all_chars Char.is_digit m = true.

(** Behind the prefix [pre] of [line] stands the run [m] of six digits, with
    no word character next to it on either side. *)
Definition bounded_run_at (line pre m : string) : Prop :=
  six_digits m
  ∧ ∃ post, line = pre +:+ m +:+ post
            ∧ Re.word_at (Str.last_from None pre) = false
            ∧ Re.word_at (Str.head post) = false.

(** [m] is the leftmost bounded run of six digits in [line]. *)
Definition first_six_run (line m : string) : Prop :=
  ∃ pre, bounded_run_at line pre m
         ∧ ∀ pre' m', bounded_run_at line pre' m' →
                      (String.length pre ≤ String.length pre')%nat.

Definition no_six_run (line : string) : Prop :=
  ∀ pre m, ¬ bounded_run_at line pre m.

(** [l1] may stand before [l2] in the report: the leftmost runs of both
    spell numbers that do not decrease, or only [l1] has a run, or neither
    has one. *)
Definition report_order (l1 l2 : string) : Prop :=
  (∃ m1 m2, first_six_run l1 m1 ∧ first_six_run l2 m2
            ∧ decimal_value m1 ≤ decimal_value m2)
  ∨ (∃ m1, first_six_run l1 m1 ∧ no_six_run l2)
  ∨ (no_six_run l1 ∧ no_six_run l2).

#[global] Instance sort_key_eq_dec : EqDecision sort_key.
Proof. solve_decision. Defined.

Example findall_article_ex :
  Re.findall_article "A100001 _100001 100001_ 100001 1000011 x-100002,100003"
  = ["100001"; "100002"; "100003"].
Proof. reflexivity. Qed.

Example search_number_ex :
  Re.search_number "100001" "1000011" = false
  ∧ Re.search_number "100001" "a 100001." = true.
Proof. split; reflexivity. Qed.

Example split_lines_ex :
  Str.split_lines (String "a" (String "010" (String "b" (String "010" ""))))
  = ["a"; "b"; ""].
Proof. reflexivity. Qed.

Example find_ex :
  find_matching_descriptions ["100001"; "100002"]
    [("a.PDF", Readable [PageText "  100001 Widget "]);
     ("main_pdf.pdf", Unreadable);
     ("b.pdf", Readable [PageText ""; PageText "x 100002 Gadget"]);
     ("c.pdf", Unreadable)] "main_pdf.pdf"
  = Returned (Search ["100001 Widget"; "x 100002 Gadget"] {["100001"; "100002"]}).
Proof. vm_compute. reflexivity. Qed.

Example sorted_ex :
  sorted_matches ["150002 a"; "none"; "100001 b"; "199999 c"; "100001 a"]
                 {["150002"; "100001"; "199999"]}
  = ["100001 b"; "100001 a"; "150002 a"; "199999 c"; "none"].
Proof. vm_compute. reflexivity. Qed.

Example main_report_ex :
  main_report ["100002"; "100001"; "100003"]
    [("a.pdf", Readable [PageText "100001 Widget"]);
     ("b.pdf", Readable [PageText "100002 Gadget"])] (World None ∅)
  = Returned
      (Shown "matched_frames.pdf" 2 (Some 1%nat),
       World (Some ["100003"])
         {[ "matched_frames.pdf" :=
              render ["100001 Widget"; "100002 Gadget"] ["100003"] ]}).
Proof. vm_compute. reflexivity. Qed.

(** ** Facts on strings *)

Section StrFacts.
Implicit Types (s t u : string) (c : ascii) (prev : option ascii).

Lemma append_nil_l s : "" +:+ s = s.
Proof. reflexivity. Qed.

Lemma append_cons c s t : String c s +:+ t = String c (s +:+ t).
Proof. reflexivity. Qed.

Lemma append_nil_r s : s +:+ "" = s.
Proof. induction s as [|c s IH]; [done|]. by rewrite append_cons, IH. Qed.

Lemma append_assoc s t u : (s +:+ t) +:+ u = s +:+ t +:+ u.
Proof. induction s as [|c s IH]; [done|]. by rewrite !append_cons, IH. Qed.

Lemma length_append s t :
  String.length (s +:+ t) = (String.length s + String.length t)%nat.
Proof. induction s as [|c s IH]; [done|]. rewrite append_cons. simpl. by rewrite IH. Qed.

Lemma last_from_app prev s t :
  Str.last_from prev (s +:+ t) = Str.last_from (Str.last_from prev s) t.
Proof.
  revert prev. induction s as [|c s IH]; intros prev; [done|].
  rewrite append_cons. simpl. apply IH.
Qed.

Lemma all_chars_app f s t :
  Str.all_chars f (s +:+ t) = Str.all_chars f s && Str.all_chars f t.
Proof.
  induction s as [|c s IH]; [done|].
  rewrite append_cons. simpl. by rewrite IH, andb_assoc.
Qed.

Lemma strip_prefix_Some p s r :
  Str.strip_prefix p s = Some r ↔ s = p +:+ r.
Proof.
  revert s. induction p as [|a p IH]; intros s; simpl.
  - rewrite append_nil_l. split; congruence.
  - rewrite append_cons. destruct s as [|b s]; [split; discriminate|].
    destruct (Ascii.eqb_spec a b) as [->|Hne].
    + rewrite IH. split; congruence.
    + split; [discriminate|congruence].
Qed.

(** Within a string of characters of a class, every position after the
    first has a character of the class before it. *)
Lemma last_from_all_chars f prev s :
  Str.all_chars f s = true → s ≠ "" →
  ∃ c, Str.last_from prev s = Some c ∧ f c = true.
Proof.
  revert prev. induction s as [|c s IH]; intros prev Hall Hne; [done|].
  simpl in *. apply andb_true_iff in Hall as [Hc Hs].
  destruct s as [|d s]; [by exists c|].
  apply (IH (Some c)); done.
Qed.

Lemma digit_is_word c : Char.is_digit c = true → Char.is_word c = true.
Proof. unfold Char.is_word, Char.is_digit. by intros ->. Qed.

End StrFacts.

(** ** Facts on the patterns *)

Section ReFacts.
Implicit Types (s m line : string) (c : ascii) (prev : option ascii).

Lemma append_eq_nil s t : "" = s +:+ t → s = "" ∧ t = "".
Proof. destruct s; [rewrite append_nil_l; by intros <-|by rewrite append_cons]. Qed.

(** A string of length six, taken apart. *)
Lemma length_six m :
  String.length m = 6%nat →
  ∃ c0 c1 c2 c3 c4 c5,
    m = String c0 (String c1 (String c2 (String c3 (String c4
          (String c5 ""))))).
Proof.
  intros Hlen.
  do 6 (destruct m as [|? m]; [discriminate Hlen|]).
  destruct m; [|discriminate Hlen]. by do 6 eexists.
Qed.

Lemma token_here_article prev s m :
  Re.token_here Re.is_one prev s = Some m ↔
  article_number m
  ∧ ∃ rest, s = m +:+ rest
            ∧ Re.word_at prev = false ∧ Re.word_at (Str.head rest) = false.
Proof.
  split.
  - intros Htok. unfold Re.token_here in Htok.
    do 6 (destruct s as [|? s]; [discriminate Htok|]).
    match type of Htok with (if ?b then _ else _) = _ =>
      destruct b eqn:Hb; [|discriminate Htok] end.
    injection Htok as <-.
    repeat (apply andb_true_iff in Hb as [Hb ?]).
    unfold Re.is_one in *.
    match goal with H : Ascii.eqb _ _ = true |- _ =>
      apply Ascii.eqb_eq in H; subst end.
    unfold Re.boundary in *. simpl Re.word_at in Hb.
    match goal with H : xorb (Re.word_at (Some ?a)) _ = true |- _ =>
      simpl Re.word_at in H; rewrite (digit_is_word a) in H by done end.
    change (Char.is_word "1") with true in Hb.
    split; [split_and!; [done| |done]|exists s; split_and!; [done| |]].
    + simpl. by repeat match goal with H : Char.is_digit _ = true |- _ =>
        rewrite H; clear H end.
    + by destruct (Re.word_at prev).
    + by destruct (Re.word_at (Str.head s)).
  - intros [(Hlen & Hdig & Hhd) (rest & -> & Hprev & Hnext)].
    destruct (length_six m Hlen) as (c0 & c1 & c2 & c3 & c4 & c5 & ->).
    simpl in Hhd. injection Hhd as ->.
    simpl in Hdig. repeat (apply andb_true_iff in Hdig as [? Hdig]).
    rewrite !append_cons, append_nil_l. unfold Re.token_here, Re.boundary.
    rewrite Hprev, Hnext. simpl Re.word_at.
    rewrite (digit_is_word c5) by done.
    change (Char.is_word "1") with true.
    by repeat match goal with H : Char.is_digit _ = true |- _ =>
      rewrite H; clear H end.
Qed.

(** Behind the first character of a token and before its end, every
    position has a word character before it. *)
Lemma token_here_inside prev c r m pre post :
  Re.token_here Re.is_one prev (String c r) = Some m →
  r = pre +:+ post → (String.length pre < 5)%nat →
  Re.word_at (Str.last_from (Some c) pre) = true.
Proof.
  intros [(Hlen & Hdig & Hhd) (rest & Hs & _)]%token_here_article Hr Hpre.
  destruct (length_six m Hlen) as (c0 & c1 & c2 & c3 & c4 & c5 & ->).
  rewrite !append_cons in Hs. injection Hs as -> ->.
  simpl in Hdig. repeat (apply andb_true_iff in Hdig as [? Hdig]).
  do 5 (destruct pre as [|? pre];
        [simpl; by auto using digit_is_word
        |rewrite append_cons in Hr; injection Hr as <- Hr]).
  simpl in Hpre. lia.
Qed.

Lemma findall_from_cons skip prev c r :
  Re.findall_from skip prev (String c r) =
  match skip with
  | S k => Re.findall_from k (Some c) r
  | O => match Re.token_here Re.is_one prev (String c r) with
         | Some m => m :: Re.findall_from 5 (Some c) r
         | None => Re.findall_from 0 (Some c) r
         end
  end.
Proof. reflexivity. Qed.

Lemma findall_from_spec s : ∀ skip prev m,
  (∀ pre post, s = pre +:+ post → (String.length pre < skip)%nat →
     Re.word_at (Str.last_from prev pre) = true) →
  m ∈ Re.findall_from skip prev s ↔
  ∃ pre post, s = pre +:+ post
              ∧ Re.token_here Re.is_one (Str.last_from prev pre) post = Some m.
Proof.
  induction s as [|c r IH]; intros skip prev m Hskip.
  - simpl. split; [by intros ?%elem_of_nil|].
    intros (pre & post & [-> ->]%append_eq_nil & Htok). discriminate Htok.
  - assert (Hshift : ∀ m',
      (∃ pre post, r = pre +:+ post
         ∧ Re.token_here Re.is_one (Str.last_from (Some c) pre) post = Some m')
      ↔ (∃ pre post, String c r = pre +:+ post ∧ pre ≠ ""
         ∧ Re.token_here Re.is_one (Str.last_from prev pre) post = Some m')).
    { intros m'. split.
      - intros (pre & post & -> & Htok). by exists (String c pre), post.
      - intros (pre & post & Heq & Hne & Htok).
        destruct pre as [|c' pre]; [done|].
        rewrite append_cons in Heq. injection Heq as <- ->. by exists pre, post. }
    rewrite findall_from_cons. destruct skip as [|k].
    + destruct (Re.token_here Re.is_one prev (String c r)) as [m0|] eqn:Htok0.
      * rewrite elem_of_cons, IH, Hshift
          by (intros pre post; eapply token_here_inside; done).
        split.
        -- intros [->|(pre & post & ? & ? & ?)]; [|by eauto].
           by exists "", (String c r).
        -- intros (pre & post & Heq & Htok).
           destruct pre as [|c' pre]; [|right; by exists (String c' pre), post].
           rewrite append_nil_l in Heq. subst post. simpl Str.last_from in Htok. left. congruence.
      * rewrite IH, Hshift by (intros; simpl in *; lia).
        split; [intros (pre & post & ? & ? & ?); eauto|].
        intros (pre & post & Heq & Htok).
        destruct pre as [|c' pre]; [|by exists (String c' pre), post].
        rewrite append_nil_l in Heq. subst post. simpl Str.last_from in Htok. congruence.
    + rewrite IH, Hshift.
      * split; [intros (pre & post & ? & ? & ?); eauto|].
        intros (pre & post & Heq & Htok).
        destruct pre as [|c' pre]; [|by exists (String c' pre), post].
        apply token_here_article in Htok as (_ & _ & _ & Hprev & _).
        specialize (Hskip "" (String c r) eq_refl ltac:(simpl; lia)).
        simpl in *. congruence.
      * intros pre post -> Hlen.
        apply (Hskip (String c pre) post); [done|simpl; lia].
Qed.

(** [re.findall] with the article pattern yields the article numbers that
    stand in the line between non-word characters or the line's ends. *)
Lemma findall_article_spec line m :
  m ∈ Re.findall_article line ↔
  article_number m ∧ occurs_between Re.word_at m line.
Proof.
  unfold Re.findall_article. rewrite findall_from_spec
    by (intros; simpl in *; lia).
  unfold occurs_between. split.
  - intros (pre & post & -> & Htok).
    apply token_here_article in Htok as (? & rest & -> & ? & ?). eauto 10.
  - intros (? & pre & post & -> & ? & ?). exists pre, (m +:+ post).
    split; [done|]. apply token_here_article. eauto 10.
Qed.

Lemma search_number_from_spec number s : ∀ prev,
  Re.search_number_from number prev s = true ↔
  ∃ pre post, s = pre +:+ post
              ∧ Re.number_here number (Str.last_from prev pre) post = true.
Proof.
  induction s as [|c r IH]; intros prev; simpl.
  - rewrite orb_false_r. split.
    + intros ?. by exists "", "".
    + by intros (pre & post & [-> ->]%append_eq_nil & ?).
  - rewrite orb_true_iff, IH. split.
    + intros [?|(pre & post & -> & ?)]; [by exists "", (String c r)|].
      by exists (String c pre), post.
    + intros (pre & post & Heq & Hnum). destruct pre as [|c' pre].
      * rewrite append_nil_l in Heq. subst post. by left.
      * rewrite append_cons in Heq. injection Heq as <- ->. right. eauto.
Qed.

(** A number made of word characters is found exactly where it stands
    between non-word characters or the line's ends. *)
Lemma search_number_spec number line :
  number ≠ "" → Str.all_chars Char.is_word number = true →
  Re.search_number number line = true ↔ occurs_between Re.word_at number line.
Proof.
  intros Hne Hword. unfold Re.search_number, occurs_between.
  rewrite search_number_from_spec.
  assert (Hhd : ∀ t, Re.word_at (Str.head (number +:+ t)) = true).
  { intros t. destruct number as [|c n]; [done|].
    rewrite append_cons. simpl in *. by apply andb_true_iff in Hword as []. }
  assert (Hlast : ∀ p, Re.word_at (Str.last_from p number) = true).
  { intros p. by destruct (last_from_all_chars _ p _ Hword Hne) as (c & -> & ?). }
  unfold Re.number_here, Re.boundary. split.
  - intros (pre & post & -> & Hnum).
    destruct (Str.strip_prefix number post) as [rest|] eqn:Hpre; [|done].
    apply strip_prefix_Some in Hpre as ->.
    rewrite Hhd, Hlast in Hnum. apply andb_true_iff in Hnum as [H1 H2].
    exists pre, rest. repeat split.
    + by destruct (Re.word_at (Str.last_from None pre)).
    + by destruct (Re.word_at (Str.head rest)).
  - intros (pre & post & -> & Hp & Hn). exists pre, (number +:+ post).
    split; [done|].
    rewrite (proj2 (strip_prefix_Some number (number +:+ post) post) eq_refl).
    by rewrite Hhd, Hlast, Hp, Hn.
Qed.

End ReFacts.

(** ** The extractor *)

Section Extractor.
Implicit Types (m line text : string) (acc : gset string).

Lemma all_chars_impl (f g : ascii → bool) s :
  (∀ c, f c = true → g c = true) →
  Str.all_chars f s = true → Str.all_chars g s = true.
Proof.
  intros Hfg. induction s as [|c s IH]; [done|]. simpl.
  rewrite !andb_true_iff. intros [??]. auto.
Qed.

Lemma digit_at_word_at (c : option ascii) :
  Re.word_at c = false → digit_at c = false.
Proof.
  destruct c as [c|]; [simpl|done].
  destruct (Char.is_digit c) eqn:Hd; [|done].
  by rewrite (digit_is_word c Hd).
Qed.

Lemma occurs_between_word_digit m line :
  occurs_between Re.word_at m line → occurs_between digit_at m line.
Proof.
  intros (pre & post & -> & ? & ?).
  exists pre, post. auto using digit_at_word_at.
Qed.

Lemma article_number_word m :
  article_number m → m ≠ "" ∧ Str.all_chars Char.is_word m = true.
Proof.
  intros (Hlen & Hdig & _). split; [by intros ->|].
  eapply all_chars_impl; [apply digit_is_word|done].
Qed.

(** In a line that is one run of digits, a number bounded by non-digits
    is the whole line. *)
Lemma occurs_in_digit_run m line :
  Str.all_chars Char.is_digit line = true →
  occurs_between digit_at m line → line = m.
Proof.
  intros Hall (pre & post & -> & Hpre & Hpost).
  rewrite !all_chars_app, !andb_true_iff in Hall.
  destruct Hall as (Hpre' & _ & Hpost').
  destruct pre as [|c pre].
  - destruct post as [|d post]; [by rewrite append_nil_l, append_nil_r|].
    simpl in *. apply andb_true_iff in Hpost' as [??]. congruence.
  - destruct (last_from_all_chars _ None _ Hpre') as (d & Hd & ?); [done|].
    rewrite Hd in Hpre. simpl in Hpre. congruence.
Qed.

Lemma extract_lines_spec lines acc :
  foldl extract_line acc lines
  = acc ∪ list_to_set (flat_map Re.findall_article lines).
Proof.
  revert acc. induction lines as [|line lines IH]; intros acc; simpl.
  - set_solver.
  - rewrite IH. unfold extract_line. set_solver.
Qed.

Lemma extract_pages_spec pages : ∀ acc,
  readable_pages pages →
  extract_pages pages acc
  = Returned (acc ∪ list_to_set
                      (flat_map Re.findall_article (text_lines pages))).
Proof.
  induction pages as [|p pages IH]; intros acc Hread; simpl.
  - f_equal. set_solver.
  - apply Forall_cons in Hread as [Hp Hread].
    destruct p as [text|]; [|done].
    destruct (String.eqb text "") eqn:Hempty.
    + rewrite IH by done. done.
    + rewrite IH by done. unfold extract_text.
      rewrite extract_lines_spec, flat_map_app. f_equal. set_solver.
Qed.

(** A page that cannot be read makes the extraction fail. *)
Lemma extract_pages_unreadable pages acc :
  ¬ readable_pages pages → extract_pages pages acc = Raised ReadError.
Proof.
  revert acc. induction pages as [|p pages IH]; intros acc Hbad; simpl.
  - destruct Hbad. constructor.
  - destruct p as [text|]; [|done].
    assert (¬ readable_pages pages).
    { intros ?. apply Hbad. by constructor. }
    destruct (String.eqb text ""); auto.
Qed.

End Extractor.

(** C7 (as amended): on a document whose pages can all be read the
    extractor returns a set; each of its elements is an article number (six
    characters, all decimal digits, the first one [1]); and the set holds
    exactly the article numbers that stand in some line of some page with
    text between two non-word characters or line ends, where a word
    character is a letter, a digit or the underscore. *)
Theorem extract_article_numbers_spec (pages : list page) :
  readable_pages pages →
  ∃ S : gset string,
    extract_article_numbers (Readable pages) = Returned S
    ∧ (∀ m, m ∈ S → article_number m)
    ∧ (∀ m, m ∈ S ↔
         article_number m
         ∧ ∃ line, line ∈ text_lines pages ∧ occurs_between Re.word_at m line).
Proof.
  intros Hread. eexists. split; [by apply extract_pages_spec|].
  assert (Hiff : ∀ m,
    m ∈ (∅ : gset string)
        ∪ list_to_set (flat_map Re.findall_article (text_lines pages)) ↔
    article_number m
    ∧ ∃ line, line ∈ text_lines pages ∧ occurs_between Re.word_at m line).
  { intros m. rewrite elem_of_union, elem_of_list_to_set, list_elem_of_In,
      in_flat_map. split.
    - intros [[]%not_elem_of_empty|(line & Hin & Hm)].
      apply list_elem_of_In, findall_article_spec in Hm as [??].
      apply list_elem_of_In in Hin. eauto.
    - intros (? & line & Hin & ?). right. exists line.
      rewrite <- !list_elem_of_In. by rewrite findall_article_spec. }
  split; [|done]. intros m Hm. by apply Hiff in Hm as [??].
Qed.

Lemma extract_article_numbers_spec_witness :
  ∃ S : gset string,
    extract_article_numbers
      (Readable [PageText "100001 Boot"; PageText ""; PageText "x-100002,1000031"])
    = Returned S
    ∧ (∀ m, m ∈ S → article_number m)
    ∧ (∀ m, m ∈ S ↔
         article_number m
         ∧ ∃ line,
             line ∈ text_lines
                      [PageText "100001 Boot"; PageText "";
                       PageText "x-100002,1000031"]
             ∧ occurs_between Re.word_at m line).
Proof.
  apply (extract_article_numbers_spec
           [PageText "100001 Boot"; PageText ""; PageText "x-100002,1000031"]).
  repeat constructor; discriminate.
Defined.

(** C7 (as stated) fails: in the line [A100001] the article number 100001
    stands between a non-digit and the end of the line, yet the extractor
    returns the empty set, the letter before it being a word character. *)
Lemma extract_digit_bounded_counterexample :
  extract_article_numbers (Readable [PageText "A100001"]) = Returned ∅
  ∧ article_number "100001"
  ∧ "A100001" ∈ text_lines [PageText "A100001"]
  ∧ occurs_between digit_at "100001" "A100001".
Proof.
  split_and!.
  - vm_compute. reflexivity.
  - by vm_compute.
  - vm_compute. left.
  - by exists "A", "".
Qed.

(** C9: a search for an article number, and the extractor's pattern, hit it
    only where it stands between two non-digits or line ends; a line that is
    one run of digits of another length, such as the seven digits 1000011,
    matches neither. *)
Theorem identifier_match_is_bounded (number line : string) :
  article_number number →
  (Re.search_number number line = true ∨ number ∈ Re.findall_article line →
   occurs_between digit_at number line)
  ∧ (Str.all_chars Char.is_digit line = true → String.length line ≠ 6%nat →
     Re.search_number number line = false ∧ Re.findall_article line = []).
Proof.
  intros Hnum. destruct (article_number_word number Hnum) as [Hne Hword].
  split.
  - intros [Hs|Hf]; apply occurs_between_word_digit.
    + by apply search_number_spec.
    + by apply findall_article_spec in Hf as [_ ?].
  - intros Hrun Hlen. split.
    + destruct (Re.search_number number line) eqn:Hs; [|done].
      apply search_number_spec in Hs; [|done..].
      apply occurs_between_word_digit, occurs_in_digit_run in Hs; [|done].
      destruct Hnum as [Hsix _]. congruence.
    + apply elem_of_nil_inv. intros m [Hm Hocc]%findall_article_spec.
      apply occurs_between_word_digit, occurs_in_digit_run in Hocc; [|done].
      destruct Hm as [Hsix _]. congruence.
Qed.

Lemma identifier_match_is_bounded_witness :
  occurs_between digit_at "100001" "a 100001."
  ∧ Re.search_number "100001" "1000011" = false
  ∧ Re.findall_article "1000011" = [].
Proof.
  assert (Hnum : article_number "100001") by (by vm_compute).
  split.
  - apply (identifier_match_is_bounded "100001" "a 100001." Hnum).
    left. vm_compute. reflexivity.
  - apply (identifier_match_is_bounded "100001" "1000011" Hnum).
    + vm_compute. reflexivity.
    + vm_compute. discriminate.
Defined.

(** ** The matcher *)

Section Matcher.
Variable article_numbers : list string.
Implicit Types (st : search) (line : string).

Let S : gset string := list_to_set article_numbers.

Lemma grows_within_refl X st : grows_within X st st.
Proof. by split. Qed.

Lemma grows_within_trans X st1 st2 st3 :
  grows_within X st1 st2 → grows_within X st2 st3 → grows_within X st1 st3.
Proof. intros [??] [??]. split; [by etrans|auto]. Qed.

(** One line adds at most one number, taken from the numbers given. *)
Lemma check_numbers_grows numbers line st :
  numbers ⊆ article_numbers →
  grows_within S st (check_numbers numbers line st).
Proof.
  induction numbers as [|number rest IH]; intros Hsub; simpl.
  - apply grows_within_refl.
  - assert (rest ⊆ article_numbers) by set_solver.
    destruct (decide (number ∈ found_articles st)); [auto|].
    destruct (Re.search_number number line); [|auto].
    split; simpl; [set_solver|].
    assert (number ∈ S) by (apply elem_of_list_to_set; set_solver).
    set_solver.
Qed.

Lemma scan_lines_grows lines st :
  grows_within S st (scan_lines article_numbers lines st).
Proof.
  revert st. induction lines as [|line rest IH]; intros st; simpl.
  - apply grows_within_refl.
  - pose proof (check_numbers_grows article_numbers line st
                  ltac:(done)) as Hline.
    destruct (all_found _ _); [done|].
    eapply grows_within_trans; [exact Hline|apply IH].
Qed.

Lemma scan_pages_grows pages st st' :
  scan_pages article_numbers pages st = Returned st' →
  grows_within S st st'.
Proof.
  revert st. induction pages as [|p rest IH]; intros st; simpl.
  - intros [= <-]. apply grows_within_refl.
  - destruct p as [text|]; [|done].
    destruct (String.eqb text ""); [by apply IH|].
    intros Hrest%IH.
    eapply grows_within_trans; [apply scan_lines_grows|exact Hrest].
Qed.

Lemma scan_folder_grows source files st st' :
  scan_folder article_numbers source files st = Returned st' →
  grows_within S st st'.
Proof.
  revert st. induction files as [|[filename pdf] rest IH]; intros st; simpl.
  - intros [= <-]. apply grows_within_refl.
  - destruct (is_candidate source filename); [|by apply IH].
    destruct pdf as [pages|]; [|done].
    destruct (scan_pages article_numbers pages st) as [st1|] eqn:Hpages;
      [|done].
    apply scan_pages_grows in Hpages.
    destruct (all_found article_numbers st1).
    + by intros [= <-].
    + intros Hrest%IH. by eapply grows_within_trans.
Qed.

(** *** What happens once everything is found *)

Hypothesis article_numbers_NoDup : NoDup article_numbers.

Lemma all_found_eq st :
  found_articles st ⊆ S → all_found article_numbers st = true →
  found_articles st = S.
Proof.
  intros Hsub Hall. apply Nat.eqb_eq in Hall.
  apply set_subseteq_size_eq; [done|].
  unfold S. rewrite size_list_to_set by done. lia.
Qed.

Lemma check_numbers_found_all numbers line st :
  numbers ⊆ article_numbers → found_articles st = S →
  check_numbers numbers line st = st.
Proof.
  intros Hsub Hfound.
  induction numbers as [|number rest IH]; simpl; [done|].
  destruct (decide (number ∈ found_articles st)) as [|Hnot].
  - apply IH. set_solver.
  - destruct Hnot. rewrite Hfound. apply elem_of_list_to_set. set_solver.
Qed.

Lemma scan_lines_found_all lines st :
  found_articles st = S → scan_lines article_numbers lines st = st.
Proof.
  intros Hfound. induction lines as [|line rest IH]; simpl; [done|].
  rewrite check_numbers_found_all by done.
  by destruct (all_found article_numbers st).
Qed.

(** The loop over the pages goes on once everything is found: what the
    remaining pages say is without effect, but each of them is still
    asked for its text. *)
Lemma scan_pages_found_all pages st :
  found_articles st = S →
  scan_pages article_numbers pages st
  = if decide (readable_pages pages) then Returned st else Raised ReadError.
Proof.
  intros Hfound. induction pages as [|p rest IH]; simpl.
  - done.
  - destruct p as [text|].
    + rewrite scan_lines_found_all by done.
      assert (scan_pages article_numbers rest st
              = if decide (readable_pages (PageText text :: rest))
                then Returned st else Raised ReadError) as ->.
      { rewrite IH. destruct (decide (readable_pages rest)) as [Hr|Hr].
        - rewrite decide_True; [done|by constructor].
        - rewrite decide_False; [done|].
          by intros [_ ?]%Forall_cons. }
      by destruct (String.eqb text "").
    + rewrite decide_False; [done|]. by intros [? _]%Forall_cons.
Qed.

(** No document behind the one that completes the found-set is opened. *)
Lemma scan_folder_stops source filename pages rest st st' :
  is_candidate source filename = true →
  scan_pages article_numbers pages st = Returned st' →
  all_found article_numbers st' = true →
  scan_folder article_numbers source ((filename, Readable pages) :: rest) st
  = Returned st'.
Proof. intros Hc Hp Hall. simpl. by rewrite Hc, Hp, Hall. Qed.

End Matcher.

(** C8: the found-set only grows and never leaves the set of the article
    numbers given: this holds across the handling of one line (the only place
    where the set is changed), of the lines of a page, of the pages of a
    document and of the documents of a directory, and so for the set that the
    matcher returns. *)
Theorem found_articles_invariant (article_numbers : list string)
    (source_pdf_name : string) :
  let S : gset string := list_to_set article_numbers in
  (∀ line st, grows_within S st (check_numbers article_numbers line st))
  ∧ (∀ lines st, grows_within S st (scan_lines article_numbers lines st))
  ∧ (∀ pages st st',
       scan_pages article_numbers pages st = Returned st' →
       grows_within S st st')
  ∧ (∀ files st st',
       scan_folder article_numbers source_pdf_name files st = Returned st' →
       grows_within S st st')
  ∧ (∀ files st,
       find_matching_descriptions article_numbers files source_pdf_name
       = Returned st →
       found_articles st ⊆ S).
Proof.
  intros S. split_and!.
  - intros line st. by apply check_numbers_grows.
  - apply scan_lines_grows.
  - apply scan_pages_grows.
  - apply scan_folder_grows.
  - intros files st Hrun. apply scan_folder_grows in Hrun as [_ Hin].
    apply Hin. simpl. set_solver.
Qed.

Lemma found_articles_invariant_witness :
  find_matching_descriptions ["100001"; "100002"]
    [("a.pdf", Readable [PageText "100001 Widget"])] "main_pdf.pdf"
  = Returned (Search ["100001 Widget"] {["100001"]})
  ∧ found_articles (Search ["100001 Widget"] {["100001"]})
    ⊆ list_to_set ["100001"; "100002"].
Proof.
  assert (Hrun : find_matching_descriptions ["100001"; "100002"]
            [("a.pdf", Readable [PageText "100001 Widget"])] "main_pdf.pdf"
          = Returned (Search ["100001 Widget"] {["100001"]}))
    by (vm_compute; reflexivity).
  split; [exact Hrun|].
  exact (proj2 (proj2 (proj2 (proj2
           (found_articles_invariant ["100001"; "100002"] "main_pdf.pdf"))))
           _ _ Hrun).
Defined.

(** C1: the early exit has no rung for the pages.  With the one number
    100001 and one document whose first page holds it, everything is found
    after the first line; the matcher still asks the second page for its
    text, and the read error of that page leaves the matcher, while the same
    document without that page gives the result. *)
Theorem early_exit_reads_later_pages :
  find_matching_descriptions ["100001"]
    [("a.pdf", Readable [PageText "100001 Widget"])] "main_pdf.pdf"
  = Returned (Search ["100001 Widget"] {["100001"]})
  ∧ all_found ["100001"] (Search ["100001 Widget"] {["100001"]}) = true
  ∧ find_matching_descriptions ["100001"]
      [("a.pdf", Readable [PageText "100001 Widget"; PageUnreadable])]
      "main_pdf.pdf"
    = Raised ReadError.
Proof. split_and!; vm_compute; reflexivity. Qed.


(** ** The stable sort *)

Section StableSortFacts.
Context {A K : Type} (lt : K → K → bool) (key : A → K).

Hypothesis lt_asym : ∀ a b, lt a b = true → lt b a = false.
Hypothesis not_lt_trans :
  ∀ a b c, lt b a = false → lt c b = false → lt c a = false.

Lemma insert_by_Permutation x l : insert_by lt key x l ≡ₚ x :: l.
Proof.
  induction l as [|y l IH]; simpl; [done|].
  destruct (lt (key y) (key x)); [|done].
  rewrite IH. apply Permutation_swap.
Qed.

Lemma sorted_by_Permutation l : sorted_by lt key l ≡ₚ l.
Proof.
  induction l as [|x l IH]; simpl; [done|].
  by rewrite insert_by_Permutation, IH.
Qed.

Lemma insert_by_HdRel y x l :
  not_after lt key y x → HdRel (not_after lt key) y l →
  HdRel (not_after lt key) y (insert_by lt key x l).
Proof.
  intros Hyx Hyl. destruct l as [|z l]; simpl; [by constructor|].
  destruct (lt (key z) (key x)); constructor; [|done].
  by inversion Hyl.
Qed.

Lemma insert_by_Sorted x l :
  Sorted (not_after lt key) l →
  Sorted (not_after lt key) (insert_by lt key x l).
Proof.
  induction 1 as [|y l Hl IH Hhd]; simpl.
  - by repeat constructor.
  - destruct (lt (key y) (key x)) eqn:Hlt.
    + constructor; [done|]. apply insert_by_HdRel; [|done].
      by apply lt_asym.
    + constructor; [by constructor|]. by constructor.
Qed.

Lemma sorted_by_Sorted l : Sorted (not_after lt key) (sorted_by lt key l).
Proof.
  induction l as [|x l IH]; simpl; [constructor|].
  by apply insert_by_Sorted.
Qed.

Lemma sorted_by_StronglySorted l :
  StronglySorted (not_after lt key) (sorted_by lt key l).
Proof.
  apply Sorted_StronglySorted; [|apply sorted_by_Sorted].
  intros x y z Hxy Hyz. unfold not_after in *. eauto.
Qed.

End StableSortFacts.

Lemma StronglySorted_ascending {A : Type} (R : A → A → Prop) (l : list A) :
  StronglySorted R l → ascending R l.
Proof.
  induction 1 as [|x l Hl IH Hall]; intros i j a b Hi Hj Hij.
  - by rewrite lookup_nil in Hi.
  - destruct j as [|j]; [lia|]. simpl in Hj. destruct i as [|i]; simpl in Hi.
    + injection Hi as <-. rewrite Forall_forall in Hall.
      apply Hall. by eapply list_elem_of_lookup_2.
    + apply (IH i j); [done..|lia].
Qed.

(** ** The report builder *)

Section Report.
Implicit Types (matches numbers : list string) (found : gset string).

Lemma key_lt_asym k1 k2 : key_lt k1 k2 = true → key_lt k2 k1 = false.
Proof.
  destruct k1 as [a|], k2 as [b|]; simpl; try done.
  rewrite N.ltb_lt, N.ltb_ge. lia.
Qed.

Lemma key_lt_not_trans k1 k2 k3 :
  key_lt k2 k1 = false → key_lt k3 k2 = false → key_lt k3 k1 = false.
Proof.
  destruct k1 as [a|], k2 as [b|], k3 as [c|]; simpl; try done.
  rewrite !N.ltb_ge. lia.
Qed.

Lemma not_after_line_order l1 l2 :
  not_after key_lt get_article_number l1 l2 ↔ line_order l1 l2.
Proof.
  unfold not_after, line_order, get_article_number.
  destruct (Re.search_six l1), (Re.search_six l2); simpl;
    rewrite ?N.ltb_ge; naive_solver.
Qed.

Lemma not_after_numeric x y :
  not_after N.ltb Str.int x y ↔ Str.int x ≤ Str.int y.
Proof. unfold not_after. by rewrite N.ltb_ge. Qed.

Lemma ascending_impl {A : Type} (R R' : A → A → Prop) (l : list A) :
  (∀ x y, R x y → R' x y) → ascending R l → ascending R' l.
Proof. intros HR Hl i j x y ???. eauto. Qed.

Lemma elem_of_filtered_matches matches found line :
  line ∈ filtered_matches matches found ↔
  line ∈ matches ∧ ∀ num, num ∈ Re.findall_article line → num ∈ found.
Proof.
  unfold filtered_matches. rewrite list_elem_of_filter.
  unfold all_numbers_found.
  rewrite Is_true_true, forallb_forall. split.
  - intros [Hall ?]. split; [done|]. intros num Hnum%list_elem_of_In.
    by apply Hall, bool_decide_eq_true in Hnum.
  - intros [? Hall]. split; [|done]. intros num Hnum%list_elem_of_In.
    by apply bool_decide_eq_true, Hall.
Qed.

Lemma elem_of_sorted_matches matches found line :
  line ∈ sorted_matches matches found ↔
  line ∈ matches ∧ ∀ num, num ∈ Re.findall_article line → num ∈ found.
Proof.
  unfold sorted_matches.
  by rewrite sorted_by_Permutation, elem_of_filtered_matches.
Qed.

Lemma matched_numbers_from (acc : gset string) (lines : list string) :
  foldl (λ acc line,
           match Re.search_six line with
           | Some m => {[m]} ∪ acc
           | None => acc
           end) acc lines
  = acc ∪ list_to_set (omap Re.search_six lines).
Proof.
  revert acc. induction lines as [|line lines IH]; intros acc; simpl.
  - set_solver.
  - rewrite IH. destruct (Re.search_six line); set_solver.
Qed.

Lemma elem_of_matched_numbers (lines : list string) m :
  m ∈ matched_numbers lines ↔
  ∃ line, line ∈ lines ∧ Re.search_six line = Some m.
Proof.
  unfold matched_numbers. rewrite matched_numbers_from.
  rewrite elem_of_union, elem_of_list_to_set, list_elem_of_omap.
  split; [|by right]. by intros [?%not_elem_of_empty|?].
Qed.

Lemma elem_of_unmatched numbers (matched : gset string) x :
  x ∈ unmatched numbers matched ↔ x ∈ numbers ∧ x ∉ matched.
Proof.
  unfold unmatched.
  rewrite sorted_by_Permutation, list_elem_of_filter, bool_decide_spec.
  naive_solver.
Qed.



Lemma body_lines_render (lines nfs : list string) :
  body_lines (render lines nfs) = lines.
Proof.
  unfold render, body_lines. simpl.
  rewrite omap_app.
  assert (omap (λ op, match op with MultiCell txt => Some txt | _ => None end)
               (write_not_found nfs) = []) as ->.
  { destruct nfs as [|nf nfs]; [done|]. unfold write_not_found. simpl.
    f_equal. induction nfs as [|x nfs IH]; [done|]. simpl in *. done. }
  rewrite app_nil_r. unfold write_matched.
  induction lines as [|line lines IH]; [done|]. simpl. by f_equal.
Qed.

End Report.

(** C3: a line is in the report exactly if it is in the match list and every
    article number that the article pattern finds in it is in the found-set;
    so a line in which an article number outside the found-set stands is not
    in the report, whatever else it holds. *)
Theorem report_keeps_fully_found_lines (matches : list string)
    (found_articles : gset string) (line : string) :
  (line ∈ sorted_matches matches found_articles ↔
   line ∈ matches
   ∧ ∀ num, num ∈ Re.findall_article line → num ∈ found_articles)
  ∧ (∀ num, article_number num → occurs_between Re.word_at num line →
       num ∉ found_articles →
       line ∉ sorted_matches matches found_articles).
Proof.
  split; [apply elem_of_sorted_matches|].
  intros num Hnum Hocc Hnot [_ Hall]%elem_of_sorted_matches.
  apply Hnot, Hall, findall_article_spec. done.
Qed.

Lemma report_keeps_fully_found_lines_witness :
  find_matching_descriptions ["100001"; "100002"]
    [("a.pdf", Readable [PageText "100001 100002 pair"])] "main_pdf.pdf"
  = Returned (Search ["100001 100002 pair"] {["100001"]})
  ∧ "100001 100002 pair"
    ∉ sorted_matches ["100001 100002 pair"] {["100001"]}.
Proof.
  split; [vm_compute; reflexivity|].
  apply (proj2 (report_keeps_fully_found_lines ["100001 100002 pair"]
                  {["100001"]} "100001 100002 pair") "100002").
  - by vm_compute.
  - by exists "100001 ", " pair".
  - by vm_compute.
Defined.

(** ** The numbers that article numbers spell *)

Section Numbers.
Implicit Types (s t : string) (c d : ascii).

Lemma digit_value_inj c d :
  Char.is_digit c = true → Char.is_digit d = true →
  Char.digit_value c = Char.digit_value d → c = d.
Proof.
  unfold Char.is_digit, Char.between, Char.digit_value, Char.code.
  rewrite !andb_true_iff, !N.leb_le. intros [??] [??] Heq.
  rewrite <- (ascii_N_embedding c), <- (ascii_N_embedding d).
  f_equal. lia.
Qed.

Lemma digit_value_bound c :
  Char.is_digit c = true → Char.digit_value c < 10.
Proof.
  unfold Char.is_digit, Char.between, Char.digit_value, Char.code.
  rewrite !andb_true_iff, !N.leb_le. lia.
Qed.

Lemma int_from_inj s : ∀ t a b,
  String.length s = String.length t →
  Str.all_chars Char.is_digit s = true →
  Str.all_chars Char.is_digit t = true →
  Str.int_from a s = Str.int_from b t → a = b ∧ s = t.
Proof.
  induction s as [|c s IH]; intros [|d t] a b Hlen Hs Ht Heq;
    try discriminate Hlen; [done|].
  simpl in *. apply andb_true_iff in Hs as [Hc Hs].
  apply andb_true_iff in Ht as [Hd Ht].
  destruct (IH t _ _ ltac:(lia) Hs Ht Heq) as [Hacc ->].
  pose proof (digit_value_bound c Hc). pose proof (digit_value_bound d Hd).
  assert (a = b) as -> by lia.
  split; [done|]. f_equal. apply digit_value_inj; [done..|lia].
Qed.

(** Different article numbers spell different numbers. *)
Lemma int_article_inj s t :
  article_number s → article_number t → Str.int s = Str.int t → s = t.
Proof.
  intros (Hls & Hs & _) (Hlt & Ht & _) Heq.
  by destruct (int_from_inj s t 0 0 ltac:(congruence) Hs Ht Heq).
Qed.

End Numbers.



(** An article number that was found, and whose line is in the report, is
    still left in [not_found] when it is not the first six-digit run of a
    line of the report. *)
Lemma found_number_left_unmatched :
  find_matching_descriptions ["100002"]
    [("a.pdf", Readable [PageText "200000 100002 Pump"])] "main_pdf.pdf"
  = Returned (Search ["200000 100002 Pump"] {["100002"]})
  ∧ save_to_pdf ["200000 100002 Pump"] ["100002"] {["100002"]}
      "matched_frames.pdf" (World None ∅)
    = ("matched_frames.pdf",
       World (Some ["100002"])
         {[ "matched_frames.pdf" :=
              render ["200000 100002 Pump"] ["100002"] ]}).
Proof. split; vm_compute; reflexivity. Qed.

(** C5 (as amended): the report builder returns the path of the rendered
    document and nothing else; the unmatched list reaches the caller through
    the module-level variable [not_found], which the builder assigns and
    [main] reads after the call; the document is written at the path. *)
Theorem save_to_pdf_returns_path_only (matches article_numbers : list string)
    (found_articles : gset string) (output_path : string) (w : world) :
  let sorted := sorted_matches matches found_articles in
  let nf := unmatched article_numbers (matched_numbers sorted) in
  let result := save_to_pdf matches article_numbers found_articles
                  output_path w in
  result.1 = output_path
  ∧ not_found result.2 = Some nf
  ∧ files result.2 !! output_path = Some (render sorted nf)
  ∧ ∀ folder_path sh w',
      main_report article_numbers folder_path w = Returned (sh, w') →
      output_pdf_path sh = "matched_frames.pdf"
      ∧ not_found_count sh = length <$> not_found w'.
Proof.
  intros sorted nf result. split_and!; [done..|apply lookup_insert_eq|].
  intros folder_path sh w'. unfold main_report.
  destruct (find_matching_descriptions _ _ _) as [st|]; [|done].
  simpl. by intros [= <- <-].
Qed.

Lemma save_to_pdf_returns_path_only_witness :
  ∃ sh w',
    main_report ["100003"] [("a.pdf", Readable [PageText "100001 Widget"])]
      (World None ∅)
    = Returned (sh, w')
    ∧ not_found w' = Some ["100003"]
    ∧ output_pdf_path sh = "matched_frames.pdf"
    ∧ not_found_count sh = length <$> not_found w'.
Proof.
  eexists _, _. split; [vm_compute; reflexivity|].
  split; [reflexivity|].
  apply (proj2 (proj2 (proj2
           (save_to_pdf_returns_path_only [] ["100003"] ∅ "matched_frames.pdf"
              (World None ∅))))
           [("a.pdf", Readable [PageText "100001 Widget"])]).
  vm_compute. reflexivity.
Defined.

(** C5 (as stated) fails: two calls return the same value although their
    unmatched lists differ, so the returned value does not hold the list. *)
Lemma save_to_pdf_result_omits_unmatched :
  (save_to_pdf [] ["100003"] ∅ "matched_frames.pdf" (World None ∅)).1
  = (save_to_pdf [] [] ∅ "matched_frames.pdf" (World None ∅)).1
  ∧ not_found
      (save_to_pdf [] ["100003"] ∅ "matched_frames.pdf" (World None ∅)).2
    = Some ["100003"]
  ∧ not_found (save_to_pdf [] [] ∅ "matched_frames.pdf" (World None ∅)).2
    = Some [].
Proof. split_and!; vm_compute; reflexivity. Qed.

(** ** The iteration order of the article numbers *)

Section IterationOrder.
Implicit Types (numbers : list string) (st : search) (line : string).

Lemma check_numbers_skip numbers line st :
  (∀ n, n ∈ numbers →
        n ∈ found_articles st ∨ Re.search_number n line = false) →
  check_numbers numbers line st = st.
Proof.
  induction numbers as [|number rest IH]; intros Hall; simpl; [done|].
  assert (check_numbers rest line st = st) as Hrest.
  { apply IH. intros n ?. apply Hall. by right. }
  destruct (decide (number ∈ found_articles st)) as [|Hnot]; [done|].
  destruct (Hall number ltac:(left)) as [? | ->]; done.
Qed.

Lemma check_numbers_hit numbers line st n :
  n ∈ numbers → n ∉ found_articles st → Re.search_number n line = true →
  (∀ n', n' ∈ numbers → Re.search_number n' line = true → n' = n) →
  check_numbers numbers line st
  = Search (matches st ++ [Str.strip line]) ({[n]} ∪ found_articles st).
Proof.
  intros Hin Hnot Hhit Huniq.
  induction numbers as [|number rest IH]; simpl; [by apply elem_of_nil in Hin|].
  assert (n ∈ rest → check_numbers rest line st
          = Search (matches st ++ [Str.strip line])
                   ({[n]} ∪ found_articles st)) as Hrest.
  { intros ?. apply IH; [done|]. intros n' ?. apply Huniq. by right. }
  apply elem_of_cons in Hin as [<-|Hin].
  - rewrite decide_False by done. by rewrite Hhit.
  - destruct (decide (number ∈ found_articles st)); [auto|].
    destruct (Re.search_number number line) eqn:Hnumber; [|auto].
    by rewrite (Huniq number ltac:(left) Hnumber).
Qed.

(** A line that is hit by one number at most is handled alike in every
    order of the numbers. *)
Lemma check_numbers_perm numbers1 numbers2 line st :
  numbers1 ≡ₚ numbers2 → single_hit numbers1 line →
  check_numbers numbers1 line st = check_numbers numbers2 line st.
Proof.
  intros Hperm Hsingle.
  destruct (decide (Exists (λ n, (n ∉ found_articles st)
                                 ∧ Re.search_number n line = true) numbers1))
    as [Hex|Hno].
  - apply Exists_exists in Hex as (n & Hin & Hnot & Hhit).
    rewrite (check_numbers_hit numbers1 line st n),
            (check_numbers_hit numbers2 line st n); try done.
    + by rewrite <- Hperm.
    + intros n' Hin' ?. rewrite <- Hperm in Hin'. by apply Hsingle.
    + intros n' ??. by apply Hsingle.
  - assert (∀ n, n ∈ numbers1 →
              n ∈ found_articles st ∨ Re.search_number n line = false) as Hall.
    { intros n Hin. destruct (decide (n ∈ found_articles st)); [by left|].
      destruct (Re.search_number n line) eqn:Hhit; [|by right].
      destruct Hno. apply Exists_exists. by exists n. }
    rewrite !check_numbers_skip; [done| |done].
    intros n Hin. apply Hall. by rewrite Hperm.
Qed.

Lemma all_found_perm numbers1 numbers2 st :
  numbers1 ≡ₚ numbers2 → all_found numbers1 st = all_found numbers2 st.
Proof. intros Hperm. unfold all_found. by rewrite Hperm. Qed.

Lemma scan_lines_perm numbers1 numbers2 lines st :
  numbers1 ≡ₚ numbers2 → Forall (single_hit numbers1) lines →
  scan_lines numbers1 lines st = scan_lines numbers2 lines st.
Proof.
  intros Hperm Hlines. revert st.
  induction Hlines as [|line rest Hline Hrest IH]; intros st; simpl; [done|].
  rewrite <- (check_numbers_perm numbers1 numbers2) by done.
  rewrite <- (all_found_perm numbers1 numbers2) by done.
  by rewrite IH.
Qed.

Lemma scan_pages_perm numbers1 numbers2 pages st :
  numbers1 ≡ₚ numbers2 → Forall (single_hit numbers1) (text_lines pages) →
  scan_pages numbers1 pages st = scan_pages numbers2 pages st.
Proof.
  intros Hperm. revert st.
  induction pages as [|p rest IH]; intros st Hlines; simpl; [done|].
  destruct p as [text|]; [|done].
  simpl in Hlines. apply Forall_app in Hlines as [Htext Hrest].
  destruct (String.eqb text ""); [by apply IH|].
  rewrite <- (scan_lines_perm numbers1 numbers2) by done. by apply IH.
Qed.

Lemma scan_folder_perm numbers1 numbers2 source files st :
  numbers1 ≡ₚ numbers2 →
  Forall (single_hit numbers1) (folder_lines source files) →
  scan_folder numbers1 source files st = scan_folder numbers2 source files st.
Proof.
  intros Hperm. revert st.
  induction files as [|[filename pdf] rest IH]; intros st Hlines; simpl;
    [done|].
  simpl in Hlines. apply Forall_app in Hlines as [Hpdf Hrest].
  destruct (is_candidate source filename); [|by apply IH].
  destruct pdf as [pages|]; [|done].
  rewrite <- (scan_pages_perm numbers1 numbers2) by done.
  destruct (scan_pages numbers1 pages st) as [st'|]; [|done].
  rewrite <- (all_found_perm numbers1 numbers2) by done.
  destruct (all_found numbers1 st'); [done|by apply IH].
Qed.

(** The unmatched list of article numbers does not show the order in which
    they were given. *)
Lemma unmatched_perm numbers1 numbers2 (matched : gset string) :
  numbers1 ≡ₚ numbers2 → Forall article_number numbers1 →
  unmatched numbers1 matched = unmatched numbers2 matched.
Proof.
  intros Hperm Hart. rewrite Forall_forall in Hart.
  apply (StronglySorted_unique_strong (not_after N.ltb Str.int)).
  - intros x y [Hx _]%elem_of_unmatched [Hy _]%elem_of_unmatched
      Hxy%not_after_numeric Hyx%not_after_numeric.
    rewrite <- Hperm in Hy. apply int_article_inj; [auto..|lia].
  - apply sorted_by_StronglySorted.
    + intros a b. rewrite N.ltb_lt, N.ltb_ge. lia.
    + intros a b c. rewrite !N.ltb_ge. lia.
  - apply sorted_by_StronglySorted.
    + intros a b. rewrite N.ltb_lt, N.ltb_ge. lia.
    + intros a b c. rewrite !N.ltb_ge. lia.
  - unfold unmatched. rewrite !sorted_by_Permutation. by rewrite Hperm.
Qed.

End IterationOrder.

(** C4 (as amended): when no line of the candidate documents is hit by two
    different article numbers of the set, a run gives the same outcome
    in every iteration order of the set: the same exception, or the same
    returned path, counts, [not_found] list and written report. *)
Theorem report_independent_of_order (numbers1 numbers2 : list string)
    (folder_path : folder) (w : world) :
  numbers1 ≡ₚ numbers2 →
  Forall article_number numbers1 →
  Forall (single_hit numbers1) (folder_lines "main_pdf.pdf" folder_path) →
  main_report numbers1 folder_path w = main_report numbers2 folder_path w.
Proof.
  intros Hperm Hart Hsingle. unfold main_report, find_matching_descriptions.
  rewrite <- (scan_folder_perm numbers1 numbers2) by done.
  destruct (scan_folder numbers1 _ _ _) as [st|]; [|done].
  unfold save_to_pdf.
  by rewrite <- (unmatched_perm numbers1 numbers2) by done.
Qed.

Lemma report_independent_of_order_witness :
  main_report ["100001"; "100002"]
    [("a.pdf", Readable [PageText "100002 Gadget"; PageText "100001 Widget"])]
    (World None ∅)
  = main_report ["100002"; "100001"]
      [("a.pdf", Readable [PageText "100002 Gadget"; PageText "100001 Widget"])]
      (World None ∅).
Proof.
  apply report_independent_of_order.
  - apply Permutation_swap.
  - repeat constructor; by vm_compute.
  - repeat constructor; intros n1 n2 Hn1 Hn2;
      repeat (apply elem_of_cons in Hn1 as [->|Hn1]);
      repeat (apply elem_of_cons in Hn2 as [->|Hn2]);
      try (by apply elem_of_nil in Hn1); try (by apply elem_of_nil in Hn2);
      vm_compute; congruence.
Defined.

(** C4 (as stated) fails: with a line that holds both numbers followed by a
    line that holds the first one, the order 100001, 100002 records one line,
    which the report then drops, and leaves both numbers unmatched; the order
    100002, 100001 records both lines, shows both and leaves 100002
    unmatched. *)
Lemma report_depends_on_iteration_order :
  let folder_path :=
    [("a.pdf", Readable [PageText "100001 100002 pair";
                         PageText "100001 single"])] in
  ["100001"; "100002"] ≡ₚ ["100002"; "100001"]
  ∧ main_report ["100001"; "100002"] folder_path (World None ∅)
    = Returned
        (Shown "matched_frames.pdf" 1 (Some 2%nat),
         World (Some ["100001"; "100002"])
           {[ "matched_frames.pdf" := render [] ["100001"; "100002"] ]})
  ∧ main_report ["100002"; "100001"] folder_path (World None ∅)
    = Returned
        (Shown "matched_frames.pdf" 2 (Some 1%nat),
         World (Some ["100002"])
           {[ "matched_frames.pdf" :=
                render ["100001 100002 pair"; "100001 single"] ["100002"] ]}).
Proof.
  split_and!; [apply Permutation_swap|vm_compute; reflexivity..].
Qed.

(** ** More on the matcher: what is recorded, and from where *)

Section MatcherRecords.
Variable article_numbers : list string.
Implicit Types (st : search) (line : string) (lines : list string).

Lemma check_numbers_balanced numbers line st :
  balanced st → balanced (check_numbers numbers line st).
Proof.
  unfold balanced. intros Hbal.
  induction numbers as [|number rest IH]; simpl; [done|].
  destruct (decide (number ∈ found_articles st)) as [|Hnew]; [done|].
  destruct (Re.search_number number line); [|done]. simpl.
  rewrite length_app, size_union, size_singleton by set_solver.
  simpl. lia.
Qed.

Lemma scan_lines_balanced lines st :
  balanced st → balanced (scan_lines article_numbers lines st).
Proof.
  revert st. induction lines as [|line rest IH]; intros st Hbal; simpl;
    [done|].
  pose proof (check_numbers_balanced article_numbers line st Hbal).
  destruct (all_found _ _); auto.
Qed.

Lemma scan_pages_balanced pages st st' :
  scan_pages article_numbers pages st = Returned st' →
  balanced st → balanced st'.
Proof.
  revert st. induction pages as [|p rest IH]; intros st; simpl.
  - by intros [= <-].
  - destruct p as [text|]; [|done].
    destruct (String.eqb text ""); [by apply IH|].
    intros Hrun Hbal. eapply IH; [exact Hrun|]. by apply scan_lines_balanced.
Qed.

Lemma scan_folder_balanced source files st st' :
  scan_folder article_numbers source files st = Returned st' →
  balanced st → balanced st'.
Proof.
  revert st. induction files as [|[filename pdf] rest IH]; intros st; simpl.
  - by intros [= <-].
  - destruct (is_candidate source filename); [|by apply IH].
    destruct pdf as [pages|]; [|done].
    destruct (scan_pages article_numbers pages st) as [st1|] eqn:Hpages;
      [|done].
    intros Hrun Hbal.
    pose proof (scan_pages_balanced _ _ _ Hpages Hbal).
    destruct (all_found article_numbers st1); [by injection Hrun as <-|].
    by eapply IH.
Qed.

Lemma size_list_to_set_le (l : list string) :
  (size (list_to_set l : gset string) ≤ length l)%nat.
Proof.
  induction l as [|x l IH].
  - by rewrite list_to_set_nil, size_empty.
  - rewrite list_to_set_cons, size_union_alt, size_singleton.
    change (length (x :: l)) with (Datatypes.S (length l)).
    pose proof (subseteq_size (list_to_set l ∖ {[x]})
                  (list_to_set l : gset string) ltac:(set_solver)).
    lia.
Qed.

Lemma recorded_from_mono lines lines' st :
  lines ⊆ lines' →
  recorded_from article_numbers lines st →
  recorded_from article_numbers lines' st.
Proof.
  intros Hsub [Hfound Hmatches]. split.
  - intros n [? (line & ? & ?)]%Hfound. split; [done|]. exists line. auto.
  - intros l (line & n & ? & ?)%Hmatches. exists line, n. auto.
Qed.

Lemma check_numbers_recorded numbers line lines st :
  numbers ⊆ article_numbers → line ∈ lines →
  recorded_from article_numbers lines st →
  recorded_from article_numbers lines (check_numbers numbers line st).
Proof.
  intros Hsub Hline Hrec.
  induction numbers as [|number rest IH]; simpl; [done|].
  assert (rest ⊆ article_numbers) by set_solver.
  destruct (decide (number ∈ found_articles st)) as [|Hnew]; [auto|].
  destruct (Re.search_number number line) eqn:Hhit; [|auto].
  assert (number ∈ article_numbers) by set_solver.
  destruct Hrec as [Hfound Hmatches]. split; simpl.
  - intros n [->%elem_of_singleton|?]%elem_of_union; [|auto].
    split; [done|]. by exists line.
  - intros l [Hold| ->%list_elem_of_singleton]%elem_of_app.
    + destruct (Hmatches l Hold) as (line' & n & ? & ? & ? & ?).
      exists line', n. split_and!; [done..| |done]. set_solver.
    + exists line, number. split_and!; [done..| |done]. set_solver.
Qed.

Lemma scan_lines_recorded lines all st :
  lines ⊆ all →
  recorded_from article_numbers all st →
  recorded_from article_numbers all (scan_lines article_numbers lines st).
Proof.
  revert st. induction lines as [|line rest IH]; intros st Hsub Hrec; simpl;
    [done|].
  assert (recorded_from article_numbers all
            (check_numbers article_numbers line st)).
  { apply check_numbers_recorded; [done|set_solver|done]. }
  destruct (all_found _ _); [done|]. apply IH; [set_solver|done].
Qed.

Lemma scan_pages_recorded pages all st st' :
  text_lines pages ⊆ all →
  scan_pages article_numbers pages st = Returned st' →
  recorded_from article_numbers all st →
  recorded_from article_numbers all st'.
Proof.
  revert st. induction pages as [|p rest IH]; intros st Hsub; simpl.
  - by intros [= <-].
  - destruct p as [text|]; [|done]. simpl in Hsub.
    destruct (String.eqb text "").
    + by apply IH.
    + intros Hrun Hrec. eapply IH; [set_solver|exact Hrun|].
      apply scan_lines_recorded; [set_solver|done].
Qed.

Lemma scan_folder_recorded source files all st st' :
  folder_lines source files ⊆ all →
  scan_folder article_numbers source files st = Returned st' →
  recorded_from article_numbers all st →
  recorded_from article_numbers all st'.
Proof.
  revert st. induction files as [|[filename pdf] rest IH]; intros st Hsub;
    simpl.
  - by intros [= <-].
  - simpl in Hsub. destruct (is_candidate source filename).
    + destruct pdf as [pages|]; [|done].
      destruct (scan_pages article_numbers pages st) as [st1|] eqn:Hpages;
        [|done].
      intros Hrun Hrec.
      assert (recorded_from article_numbers all st1).
      { eapply scan_pages_recorded; [|exact Hpages|done]. set_solver. }
      destruct (all_found article_numbers st1); [by injection Hrun as <-|].
      eapply IH; [set_solver|exact Hrun|done].
    + apply IH. set_solver.
Qed.

End MatcherRecords.

(** X1: the matcher returns as many recorded lines as found numbers, and
    never more than there are article numbers. *)
Theorem matches_count_is_found_count (article_numbers : list string)
    (folder_path : folder) (source_pdf_name : string) (st : search) :
  find_matching_descriptions article_numbers folder_path source_pdf_name
  = Returned st →
  length (matches st) = size (found_articles st)
  ∧ (length (matches st) ≤ length article_numbers)%nat.
Proof.
  intros Hrun.
  assert (balanced st) as Hbal.
  { eapply scan_folder_balanced; [exact Hrun|]. reflexivity. }
  split; [done|]. rewrite Hbal.
  apply scan_folder_grows in Hrun as [_ Hin].
  etrans; [apply subseteq_size, Hin; simpl; set_solver|].
  apply size_list_to_set_le.
Qed.

Lemma matches_count_is_found_count_witness :
  length (matches (Search ["100001 Widget"] {["100001"]}))
  = size (found_articles (Search ["100001 Widget"] {["100001"]}))
  ∧ (length (matches (Search ["100001 Widget"] {["100001"]}))
     ≤ length ["100001"; "100002"])%nat.
Proof.
  apply (matches_count_is_found_count ["100001"; "100002"]
           [("a.pdf", Readable [PageText "100001 Widget"])] "main_pdf.pdf").
  vm_compute. reflexivity.
Defined.

(** X2: whatever the matcher returns comes from the candidate documents:
    every found number is one of the article numbers and hits a line of a
    candidate document, and every recorded line is such a line, stripped,
    that one of the found numbers hits. *)
Theorem matcher_records_only_hits (article_numbers : list string)
    (folder_path : folder) (source_pdf_name : string) (st : search) :
  find_matching_descriptions article_numbers folder_path source_pdf_name
  = Returned st →
  recorded_from article_numbers (folder_lines source_pdf_name folder_path) st.
Proof.
  intros Hrun. eapply scan_folder_recorded; [done|exact Hrun|].
  split; simpl; [set_solver|]. by intros l ?%elem_of_nil.
Qed.

Lemma matcher_records_only_hits_witness :
  recorded_from ["100001"; "100002"]
    (folder_lines "main_pdf.pdf"
       [("a.pdf", Readable [PageText "  100001 Widget "]);
        ("notes.txt", Unreadable)])
    (Search ["100001 Widget"] {["100001"]}).
Proof.
  apply matcher_records_only_hits. vm_compute. reflexivity.
Defined.

(** ** More on the matcher: what is found, and which files are opened *)

Section MatcherCoverage.
Variable article_numbers : list string.
Hypothesis article_numbers_NoDup : NoDup article_numbers.
Implicit Types (st : search) (line : string) (lines : list string).

(** A line hit by one number at most leaves that number found. *)
Lemma check_numbers_covers line st n :
  single_hit article_numbers line →
  n ∈ article_numbers → Re.search_number n line = true →
  n ∈ found_articles (check_numbers article_numbers line st).
Proof.
  intros Hsingle Hin Hhit.
  destruct (decide (n ∈ found_articles st)) as [Hold|Hnew].
  - by apply (check_numbers_grows article_numbers article_numbers line st).
  - rewrite (check_numbers_hit article_numbers line st n); try done.
    + simpl. set_solver.
    + intros n' ??. by apply Hsingle.
Qed.

Lemma all_found_covers st n :
  found_articles st ⊆ list_to_set article_numbers →
  all_found article_numbers st = true →
  n ∈ article_numbers → n ∈ found_articles st.
Proof.
  intros Hsub Hall Hin. rewrite (all_found_eq article_numbers) by done.
  by apply elem_of_list_to_set.
Qed.

Lemma scan_lines_covers lines st n :
  found_articles st ⊆ list_to_set article_numbers →
  Forall (single_hit article_numbers) lines →
  n ∈ article_numbers → hit_in lines n →
  n ∈ found_articles (scan_lines article_numbers lines st).
Proof.
  intros Hsub Hsingle Hin. revert st Hsub.
  induction Hsingle as [|line rest Hline Hrest IH]; intros st Hsub Hhit.
  - destruct Hhit as (line & []%elem_of_nil & _).
  - simpl.
    destruct (check_numbers_grows article_numbers article_numbers line st
                ltac:(done)) as [_ Hsub1].
    specialize (Hsub1 Hsub).
    destruct (all_found _ _) eqn:Hall; [by apply all_found_covers|].
    destruct Hhit as (line' & [->|Hin']%elem_of_cons & Hhit).
    + apply (scan_lines_grows article_numbers rest).
      by apply check_numbers_covers.
    + apply IH; [done|]. by exists line'.
Qed.

Lemma scan_pages_covers pages st st' n :
  found_articles st ⊆ list_to_set article_numbers →
  Forall (single_hit article_numbers) (text_lines pages) →
  scan_pages article_numbers pages st = Returned st' →
  n ∈ article_numbers → hit_in (text_lines pages) n →
  n ∈ found_articles st'.
Proof.
  intros Hsub Hsingle Hrun Hin. revert st Hsub Hsingle Hrun.
  induction pages as [|p rest IH]; intros st Hsub Hsingle; simpl.
  - intros _ (line & []%elem_of_nil & _).
  - destruct p as [text|]; [|done]. simpl in Hsingle.
    apply Forall_app in Hsingle as [Htext Hrest].
    destruct (String.eqb text ""); [by apply IH|].
    intros Hrun (line & [Hhere|Hlater]%elem_of_app & Hhit).
    + apply (scan_pages_grows article_numbers) in Hrun as [Hgrow _].
      apply Hgrow, scan_lines_covers; [done..|]. by exists line.
    + eapply IH; [|done|exact Hrun|by exists line].
      by apply (scan_lines_grows article_numbers).
Qed.

Lemma scan_folder_covers source files st st' n :
  found_articles st ⊆ list_to_set article_numbers →
  Forall (single_hit article_numbers) (folder_lines source files) →
  scan_folder article_numbers source files st = Returned st' →
  n ∈ article_numbers → hit_in (folder_lines source files) n →
  n ∈ found_articles st'.
Proof.
  intros Hsub Hsingle Hrun Hin. revert st Hsub Hsingle Hrun.
  induction files as [|[filename pdf] rest IH]; intros st Hsub Hsingle; simpl.
  - intros _ (line & []%elem_of_nil & _).
  - simpl in Hsingle. apply Forall_app in Hsingle as [Hpdf Hrest].
    destruct (is_candidate source filename); [|by apply IH].
    destruct pdf as [pages|]; [|done].
    destruct (scan_pages article_numbers pages st) as [st1|] eqn:Hpages;
      [|done].
    pose proof (scan_pages_grows article_numbers _ _ _ Hpages) as [_ Hsub1].
    specialize (Hsub1 Hsub).
    destruct (all_found article_numbers st1) eqn:Hall.
    + intros [= <-] _. by apply all_found_covers.
    + intros Hrun (line & [Hhere|Hlater]%elem_of_app & Hhit).
      * apply (scan_folder_grows article_numbers) in Hrun as [Hgrow _].
        apply Hgrow, (scan_pages_covers pages st st1 n); [done..|].
        by exists line.
      * eapply IH; [done..|by exists line].
Qed.

(** Once the found-set is complete after some documents, whatever stands
    behind them in the directory is never opened. *)
Lemma scan_folder_app_complete source files1 files2 st st' :
  scan_folder article_numbers source files1 st = Returned st' →
  all_found article_numbers st = false →
  all_found article_numbers st' = true →
  scan_folder article_numbers source (files1 ++ files2) st = Returned st'.
Proof.
  revert st. induction files1 as [|[filename pdf] rest IH]; intros st; simpl.
  - intros [= <-] ??. congruence.
  - destruct (is_candidate source filename); [|by apply IH].
    destruct pdf as [pages|]; [|done].
    destruct (scan_pages article_numbers pages st) as [st1|]; [|done].
    destruct (all_found article_numbers st1) eqn:Hall1; [done|].
    intros Hrun _ Hall. by apply IH.
Qed.

End MatcherCoverage.

(** Entries of the directory that are no candidates are passed over. *)
Lemma scan_folder_candidates article_numbers source
    (files : list (string * document)) st :
  scan_folder article_numbers source files st
  = scan_folder article_numbers source
      (filter (λ f, is_candidate source f.1 = true) files) st.
Proof.
  revert st. induction files as [|[filename pdf] rest IH]; intros st; [done|].
  rewrite filter_cons. simpl.
  destruct (is_candidate source filename) eqn:Hcand.
  - rewrite decide_True by done. simpl. rewrite Hcand.
    destruct pdf as [pages|]; [|done].
    destruct (scan_pages article_numbers pages st) as [st1|]; [|done].
    by destruct (all_found article_numbers st1).
  - rewrite decide_False by congruence. apply IH.
Qed.

(** X3: when no line of the candidate documents is hit by two of the article
    numbers, the numbers that the matcher returns as found are exactly the
    article numbers that hit some line of a candidate document. *)
Theorem found_articles_are_the_hits (article_numbers : list string)
    (folder_path : folder) (source_pdf_name : string) (st : search) :
  NoDup article_numbers →
  Forall (single_hit article_numbers)
         (folder_lines source_pdf_name folder_path) →
  find_matching_descriptions article_numbers folder_path source_pdf_name
  = Returned st →
  ∀ n, n ∈ found_articles st ↔
       n ∈ article_numbers
       ∧ hit_in (folder_lines source_pdf_name folder_path) n.
Proof.
  intros Hnd Hsingle Hrun n. split.
  - assert (recorded_from article_numbers
              (folder_lines source_pdf_name folder_path) st) as [Hfound _].
    { eapply scan_folder_recorded; [done|exact Hrun|].
      split; simpl; [set_solver|]. by intros l ?%elem_of_nil. }
    apply Hfound.
  - intros [Hin Hhit].
    eapply scan_folder_covers; [done| |done|exact Hrun|done..].
    simpl. set_solver.
Qed.

Lemma found_articles_are_the_hits_witness :
  "100003" ∈ found_articles (Search ["100002 Gadget"] {["100002"]}) ↔
  "100003" ∈ ["100001"; "100002"; "100003"]
  ∧ hit_in (folder_lines "main_pdf.pdf"
              [("b.pdf", Readable [PageText "100002 Gadget"; PageText "1000031"])])
           "100003".
Proof.
  apply (found_articles_are_the_hits ["100001"; "100002"; "100003"]
           [("b.pdf", Readable [PageText "100002 Gadget"; PageText "1000031"])]
           "main_pdf.pdf").
  - compute_done.
  - repeat constructor; intros n1 n2 Hn1 Hn2;
      repeat (apply elem_of_cons in Hn1 as [->|Hn1]);
      repeat (apply elem_of_cons in Hn2 as [->|Hn2]);
      try (by apply elem_of_nil in Hn1); try (by apply elem_of_nil in Hn2);
      vm_compute; congruence.
  - vm_compute. reflexivity.
Defined.

(** X4: the matcher opens the candidates only: the source document, files
    without the extension and whatever else is no candidate can be taken out
    of the directory, unreadable or not, without any change of the outcome. *)
Theorem matcher_opens_candidates_only (article_numbers : list string)
    (folder_path : folder) (source_pdf_name : string) :
  find_matching_descriptions article_numbers folder_path source_pdf_name
  = find_matching_descriptions article_numbers
      (filter (λ f, is_candidate source_pdf_name f.1 = true) folder_path)
      source_pdf_name.
Proof.
  exact (scan_folder_candidates article_numbers source_pdf_name folder_path _).
Qed.

(** X5: when the found-set is complete after the documents of a directory,
    at least one article number being given, the outcome stays the same with
    any further entries behind them, unreadable ones included. *)
Theorem matcher_ignores_files_after_completion
    (article_numbers : list string) (files1 files2 : folder)
    (source_pdf_name : string) (st : search) :
  article_numbers ≠ [] →
  find_matching_descriptions article_numbers files1 source_pdf_name
  = Returned st →
  all_found article_numbers st = true →
  find_matching_descriptions article_numbers (files1 ++ files2)
    source_pdf_name
  = Returned st.
Proof.
  intros Hne Hrun Hall. apply scan_folder_app_complete; [done| |done].
  unfold all_found. simpl. destruct article_numbers; [done|].
  reflexivity.
Qed.

Lemma matcher_ignores_files_after_completion_witness :
  find_matching_descriptions ["100001"]
    ([("a.pdf", Readable [PageText "100001 Widget"])]
     ++ [("b.pdf", Unreadable)]) "main_pdf.pdf"
  = Returned (Search ["100001 Widget"] {["100001"]}).
Proof.
  apply matcher_ignores_files_after_completion.
  - discriminate.
  - vm_compute. reflexivity.
  - vm_compute. reflexivity.
Defined.

(** X6: without article numbers the matcher returns nothing found and
    nothing recorded, yet it opens the first candidate of the directory and
    asks each of its pages for the text: it fails if that document or one of
    its pages cannot be read, and opens nothing behind it. *)
Theorem matcher_without_numbers (folder_path : list (string * document))
    (source_pdf_name : string) :
  find_matching_descriptions [] folder_path source_pdf_name
  = match filter (λ f, is_candidate source_pdf_name f.1 = true) folder_path with
    | [] => Returned (Search [] ∅)
    | (_, Unreadable) :: _ => Raised ReadError
    | (_, Readable pages) :: _ =>
        if decide (readable_pages pages) then Returned (Search [] ∅)
        else Raised ReadError
    end.
Proof.
  unfold find_matching_descriptions. rewrite scan_folder_candidates.
  destruct (filter _ folder_path) as [|[filename pdf] rest] eqn:Hfilter;
    [done|].
  assert (is_candidate source_pdf_name filename = true) as Hcand.
  { assert ((filename, pdf)
            ∈ filter (λ f, is_candidate source_pdf_name f.1 = true) folder_path)
      as Hin by (rewrite Hfilter; left).
    by apply list_elem_of_filter in Hin as [? _]. }
  simpl. rewrite Hcand. destruct pdf as [pages|]; [|done].
  rewrite (scan_pages_found_all [] (NoDup_nil_2 (A:=string))) by done.
  by destruct (decide (readable_pages pages)).
Qed.

(** X7: a recorded line in which an article number stands that is not one of
    the article numbers given never reaches the report. *)
Theorem foreign_article_number_drops_line (article_numbers : list string)
    (folder_path : folder) (source_pdf_name : string) (st : search)
    (num line : string) :
  find_matching_descriptions article_numbers folder_path source_pdf_name
  = Returned st →
  article_number num → occurs_between Re.word_at num line →
  num ∉ article_numbers →
  line ∉ sorted_matches (matches st) (found_articles st).
Proof.
  intros Hrun Hnum Hocc Hforeign [_ Hall]%elem_of_sorted_matches.
  apply scan_folder_grows in Hrun as [_ Hin].
  apply Hforeign, (elem_of_list_to_set (C:=gset string)), Hin.
  - simpl. set_solver.
  - apply Hall, findall_article_spec. done.
Qed.

Lemma foreign_article_number_drops_line_witness :
  "100001 see also 100009"
  ∉ sorted_matches (matches (Search ["100001 see also 100009"] {["100001"]}))
      (found_articles (Search ["100001 see also 100009"] {["100001"]})).
Proof.
  apply (foreign_article_number_drops_line ["100001"]
           [("a.pdf", Readable [PageText "100001 see also 100009"])]
           "main_pdf.pdf" _ "100009").
  - vm_compute. reflexivity.
  - by vm_compute.
  - by exists "100001 see also ", "".
  - compute_done.
Defined.

(** ** More on the extractor *)

Section ExtractorMore.
Implicit Types (pages : list page).

Lemma readable_pages_unreadable pages :
  ¬ readable_pages pages ↔ PageUnreadable ∈ pages.
Proof.
  unfold readable_pages. rewrite Forall_forall. split.
  - intros Hnot. destruct (decide (PageUnreadable ∈ pages)); [done|].
    destruct Hnot. by intros p ? ->.
  - intros Hin Hall. by apply (Hall _ Hin).
Qed.

Lemma text_lines_app pages1 pages2 :
  text_lines (pages1 ++ pages2) = text_lines pages1 ++ text_lines pages2.
Proof. unfold text_lines. apply flat_map_app. Qed.

Lemma text_lines_perm pages1 pages2 :
  pages1 ≡ₚ pages2 → text_lines pages1 ≡ₚ text_lines pages2.
Proof. intros Hperm. unfold text_lines. by apply Permutation_flat_map. Qed.

End ExtractorMore.

(** X8: the extractor fails exactly on a document that cannot be opened or
    that has a page that cannot be read, wherever the page stands. *)
Theorem extract_raises_iff (pdf : document) :
  extract_article_numbers pdf = Raised ReadError ↔
  pdf = Unreadable ∨ ∃ pages, pdf = Readable pages ∧ PageUnreadable ∈ pages.
Proof.
  destruct pdf as [pages|]; simpl; [|by split; [left|]].
  split.
  - intros Hrun. right. exists pages. split; [done|].
    apply readable_pages_unreadable. intros Hread.
    by rewrite extract_pages_spec in Hrun.
  - intros [?|(pages' & [= <-] & Hin)]; [done|].
    by apply extract_pages_unreadable, readable_pages_unreadable.
Qed.

Lemma extract_raises_iff_witness :
  extract_article_numbers
    (Readable [PageText "100001 Boot"; PageUnreadable; PageText "100002 Clog"])
  = Raised ReadError.
Proof.
  apply extract_raises_iff. right. eexists. split; [reflexivity|].
  right. left.
Defined.

(** X9: the order of the pages does not show in what the extractor
    returns. *)
Theorem extract_independent_of_page_order (pages1 pages2 : list page) :
  pages1 ≡ₚ pages2 →
  extract_article_numbers (Readable pages1)
  = extract_article_numbers (Readable pages2).
Proof.
  intros Hperm. simpl.
  destruct (decide (readable_pages pages1)) as [Hread|Hbad].
  - rewrite !extract_pages_spec; [|by unfold readable_pages; rewrite <- Hperm|done].
    f_equal. apply set_eq. intros m.
    rewrite !elem_of_union, !elem_of_list_to_set.
    by rewrite (Permutation_flat_map _ (text_lines_perm _ _ Hperm)).
  - rewrite !extract_pages_unreadable; [done| |done].
    unfold readable_pages in *. by rewrite <- Hperm.
Qed.

Lemma extract_independent_of_page_order_witness :
  extract_article_numbers
    (Readable [PageText "100001 Boot"; PageText "100002 Clog"])
  = extract_article_numbers
      (Readable [PageText "100002 Clog"; PageText "100001 Boot"]).
Proof.
  apply extract_independent_of_page_order, Permutation_swap.
Defined.

(** X10: what the extractor returns for pages put one behind the other is
    the union of what it returns for the two parts. *)
Theorem extract_of_appended_pages (pages1 pages2 : list page) (S1 S2 : gset string) :
  extract_article_numbers (Readable pages1) = Returned S1 →
  extract_article_numbers (Readable pages2) = Returned S2 →
  extract_article_numbers (Readable (pages1 ++ pages2)) = Returned (S1 ∪ S2).
Proof.
  simpl. intros Hrun1 Hrun2.
  assert (readable_pages pages1) as Hread1.
  { destruct (decide (readable_pages pages1)) as [|Hbad]; [done|].
    by rewrite (extract_pages_unreadable pages1 ∅ Hbad) in Hrun1. }
  assert (readable_pages pages2) as Hread2.
  { destruct (decide (readable_pages pages2)) as [|Hbad]; [done|].
    by rewrite (extract_pages_unreadable pages2 ∅ Hbad) in Hrun2. }
  rewrite extract_pages_spec in Hrun1, Hrun2 by done.
  injection Hrun1 as <-. injection Hrun2 as <-.
  rewrite extract_pages_spec by (by apply Forall_app).
  f_equal. rewrite text_lines_app, flat_map_app. set_solver.
Qed.

Lemma extract_of_appended_pages_witness :
  extract_article_numbers
    (Readable ([PageText "100001 Boot"] ++ [PageText ""; PageText "100002 Clog"]))
  = Returned ({["100001"]} ∪ {["100002"]}).
Proof.
  apply extract_of_appended_pages; vm_compute; reflexivity.
Defined.

(** ** The candidates of a directory *)

Section Candidates.
Implicit Types (s t : string) (c : ascii).

Lemma endswith_nil suffix :
  Str.endswith "" suffix = String.eqb "" suffix || false.
Proof. reflexivity. Qed.

Lemma endswith_cons c r suffix :
  Str.endswith (String c r) suffix
  = String.eqb (String c r) suffix || Str.endswith r suffix.
Proof. reflexivity. Qed.

Lemma endswith_spec s suffix :
  Str.endswith s suffix = true ↔ ∃ pre, s = pre +:+ suffix.
Proof.
  induction s as [|c r IH]; [rewrite endswith_nil|rewrite endswith_cons].
  - rewrite orb_false_r, String.eqb_eq. split.
    + intros <-. by exists "".
    + by intros (pre & [_ ->]%append_eq_nil).
  - rewrite orb_true_iff, String.eqb_eq, IH. split.
    + intros [<-|(pre & ->)]; [by exists ""|by exists (String c pre)].
    + intros ([|c' pre] & Heq).
      * left. by rewrite append_nil_l in Heq.
      * right. rewrite append_cons in Heq. injection Heq as _ ->. by exists pre.
Qed.

Lemma lower_app_inv s : ∀ a b,
  Str.lower s = a +:+ b →
  ∃ s1 s2, s = s1 +:+ s2 ∧ Str.lower s1 = a ∧ Str.lower s2 = b.
Proof.
  induction s as [|c r IH]; intros a b; simpl.
  - intros [-> ->]%append_eq_nil. by exists "", "".
  - destruct a as [|d a].
    + rewrite append_nil_l. intros <-. by exists "", (String c r).
    + rewrite append_cons. intros [= <- (s1 & s2 & -> & <- & <-)%IH].
      by exists (String c s1), s2.
Qed.

Lemma lower_app s t : Str.lower (s +:+ t) = Str.lower s +:+ Str.lower t.
Proof.
  induction s as [|c r IH]; [done|].
  rewrite append_cons. simpl. by rewrite IH, append_cons.
Qed.

Lemma lower_is_dot c : Char.lower c = "."%char ↔ c = "."%char.
Proof.
  destruct c as [[] [] [] [] [] [] [] []]; vm_compute;
    split; intros; congruence.
Qed.

Lemma lower_is_p c : Char.lower c = "p"%char ↔ c = "p"%char ∨ c = "P"%char.
Proof.
  destruct c as [[] [] [] [] [] [] [] []]; vm_compute;
    (split; [intros; first [by left|by right|congruence]
            |intros [?|?]; congruence]).
Qed.

Lemma lower_is_d c : Char.lower c = "d"%char ↔ c = "d"%char ∨ c = "D"%char.
Proof.
  destruct c as [[] [] [] [] [] [] [] []]; vm_compute;
    (split; [intros; first [by left|by right|congruence]
            |intros [?|?]; congruence]).
Qed.

Lemma lower_is_f c : Char.lower c = "f"%char ↔ c = "f"%char ∨ c = "F"%char.
Proof.
  destruct c as [[] [] [] [] [] [] [] []]; vm_compute;
    (split; [intros; first [by left|by right|congruence]
            |intros [?|?]; congruence]).
Qed.

End Candidates.

(** X11: a directory entry is a candidate exactly if its name differs from
    the name of the source document, letter for letter, and ends with a dot
    and the letters p, d, f, each in either case. *)
Theorem is_candidate_spec (source_pdf_name filename : string) :
  is_candidate source_pdf_name filename = true ↔
  filename ≠ source_pdf_name
  ∧ ∃ base e1 e2 e3,
      filename = base +:+ String "." (String e1 (String e2 (String e3 "")))
      ∧ (e1 = "p" ∨ e1 = "P")%char
      ∧ (e2 = "d" ∨ e2 = "D")%char
      ∧ (e3 = "f" ∨ e3 = "F")%char.
Proof.
  unfold is_candidate.
  rewrite andb_true_iff, negb_true_iff, String.eqb_neq, endswith_spec.
  split; intros [Hext Hne].
  - split; [done|]. destruct Hext as (pre & Hlower).
    apply lower_app_inv in Hlower as (base & ext & -> & _ & Hlow).
    do 4 (destruct ext as [|? ext]; [discriminate Hlow|]).
    destruct ext; [|discriminate Hlow].
    simpl in Hlow. injection Hlow as Hdot Hp Hd Hf.
    apply (proj1 (lower_is_dot _)) in Hdot as ->.
    apply (proj1 (lower_is_p _)) in Hp. apply (proj1 (lower_is_d _)) in Hd.
    apply (proj1 (lower_is_f _)) in Hf. eauto 10.
  - split; [|done]. destruct Hne as (base & e1 & e2 & e3 & -> & H1 & H2 & H3).
    exists (Str.lower base). rewrite lower_app. f_equal. simpl.
    apply lower_is_p in H1 as ->. apply lower_is_d in H2 as ->.
    apply lower_is_f in H3 as ->. done.
Qed.

Lemma is_candidate_spec_witness :
  is_candidate "main_pdf.pdf" "Catalogue.PdF" = true.
Proof.
  apply is_candidate_spec. split; [discriminate|].
  exists "Catalogue", "P"%char, "d"%char, "F"%char.
  split_and!; [reflexivity|by right|by left|by right].
Defined.

(** ** Stripping a line *)

Section Strip.
Implicit Types (s t ws : string) (c : ascii).

Lemma space_not_word c : Char.is_space c = true → Char.is_word c = false.
Proof. destruct c as [[] [] [] [] [] [] [] []]; vm_compute; congruence. Qed.

Lemma lstrip_spec s :
  ∃ ws, s = ws +:+ Str.lstrip s ∧ Str.all_chars Char.is_space ws = true.
Proof.
  induction s as [|c r (ws & Hr & Hws)]; [by exists ""|]. simpl.
  destruct (Char.is_space c) eqn:Hc; [|by exists ""].
  exists (String c ws). rewrite append_cons, <- Hr. simpl. by rewrite Hc.
Qed.

Lemma rstrip_spec s :
  ∃ ws, s = Str.rstrip s +:+ ws ∧ Str.all_chars Char.is_space ws = true.
Proof.
  induction s as [|c r (ws & Hr & Hws)]; [by exists ""|]. simpl.
  destruct (Str.rstrip r) as [|d r'] eqn:Hstrip.
  - rewrite append_nil_l in Hr. subst ws.
    destruct (Char.is_space c) eqn:Hc.
    + exists (String c r). simpl. by rewrite Hc.
    + by exists r.
  - exists ws. by rewrite append_cons, <- Hr.
Qed.

Lemma last_from_nonempty prev prev' s :
  s ≠ "" → Str.last_from prev s = Str.last_from prev' s.
Proof. by destruct s. Qed.

Lemma head_append_nonempty s t : s ≠ "" → Str.head (s +:+ t) = Str.head s.
Proof. by destruct s. Qed.

Lemma snoc_inj s : ∀ t c d,
  s +:+ String c "" = t +:+ String d "" → s = t ∧ c = d.
Proof.
  induction s as [|x s IH]; intros [|y t] c d;
    rewrite ?append_nil_l, ?append_cons.
  - by intros [= ->].
  - by intros [= _ [_ ?]%append_eq_nil].
  - intros [= _ Heq]. symmetry in Heq. by apply append_eq_nil in Heq as [_ ?].
  - intros [= -> [-> ->]%IH]. done.
Qed.

Lemma snoc_destruct s : s ≠ "" → ∃ t c, s = t +:+ String c "".
Proof.
  induction s as [|x s IH]; [done|]. intros _.
  destruct s as [|y s]; [by exists "", x|].
  destruct (IH ltac:(done)) as (t & c & ->). by exists (String x t), c.
Qed.

Context (number : string).
Hypothesis number_nonempty : number ≠ "".
Hypothesis number_word : Str.all_chars Char.is_word number = true.

Lemma occurs_cons_space c s :
  Char.is_word c = false →
  occurs_between Re.word_at number (String c s)
  ↔ occurs_between Re.word_at number s.
Proof.
  intros Hc. split.
  - intros ([|c' pre] & post & Heq & Hpre & Hpost).
    + destruct number as [|d n]; [done|].
      rewrite append_nil_l, append_cons in Heq. injection Heq as <- _.
      simpl in number_word. apply andb_true_iff in number_word as [??].
      congruence.
    + rewrite append_cons in Heq. injection Heq as <- ->.
      exists pre, post. split_and!; [done| |done].
      destruct pre as [|x pre]; [done|].
      by rewrite (last_from_nonempty None (Some c)).
  - intros (pre & post & -> & Hpre & Hpost).
    exists (String c pre), post. split_and!; [done| |done].
    destruct pre as [|x pre]; [done|].
    by rewrite (last_from_nonempty None (Some c)) in Hpre.
Qed.

Lemma occurs_snoc_space s c :
  Char.is_word c = false →
  occurs_between Re.word_at number (s +:+ String c "")
  ↔ occurs_between Re.word_at number s.
Proof.
  intros Hc. split.
  - intros (pre & post & Heq & Hpre & Hpost).
    destruct (decide (post = "")) as [->|Hne].
    + rewrite append_nil_r, <- (append_nil_r (pre +:+ number)) in Heq.
      assert (Str.last_from None (s +:+ String c "") = Some c) as Hlast
        by (by rewrite last_from_app).
      rewrite Heq, append_nil_r, last_from_app in Hlast.
      destruct (last_from_all_chars _ (Str.last_from None pre) _
                  number_word number_nonempty) as (d & Hd & ?).
      congruence.
    + destruct (snoc_destruct post Hne) as (post' & c' & ->).
      rewrite <- !append_assoc in Heq. apply snoc_inj in Heq as [-> <-].
      exists pre, post'. split_and!; [by rewrite append_assoc|done|].
      destruct post' as [|x post']; [done|].
      by rewrite head_append_nonempty in Hpost.
  - intros (pre & post & -> & Hpre & Hpost).
    exists pre, (post +:+ String c ""). split_and!; [|done|].
    + by rewrite !append_assoc.
    + destruct post as [|x post]; [by rewrite append_nil_l|].
      by rewrite head_append_nonempty.
Qed.

Lemma occurs_spaces_app ws s :
  Str.all_chars Char.is_space ws = true →
  occurs_between Re.word_at number (ws +:+ s)
  ↔ occurs_between Re.word_at number s.
Proof.
  induction ws as [|c ws IH]; [done|]. simpl.
  intros [Hc Hws]%andb_true_iff.
  rewrite append_cons, occurs_cons_space by (by apply space_not_word). auto.
Qed.

Lemma occurs_app_spaces ws : ∀ s,
  Str.all_chars Char.is_space ws = true →
  occurs_between Re.word_at number (s +:+ ws)
  ↔ occurs_between Re.word_at number s.
Proof.
  induction ws as [|c ws IH]; intros s; [by rewrite append_nil_r|]. simpl.
  intros [Hc Hws]%andb_true_iff.
  change (String c ws) with (String c "" +:+ ws).
  rewrite <- append_assoc, IH, occurs_snoc_space
    by (done || by apply space_not_word).
  done.
Qed.

Lemma occurs_strip s :
  occurs_between Re.word_at number (Str.strip s)
  ↔ occurs_between Re.word_at number s.
Proof.
  unfold Str.strip.
  destruct (lstrip_spec s) as (ws1 & Hs & Hws1).
  destruct (rstrip_spec (Str.lstrip s)) as (ws2 & Hl & Hws2).
  rewrite Hs at 2. rewrite occurs_spaces_app by done.
  rewrite Hl at 2. by rewrite occurs_app_spaces.
Qed.

End Strip.

(** X12: stripping a line changes nothing for the patterns: the article
    pattern finds the same numbers in the stripped line as in the line, and a
    search for an article number has the same answer on both. *)
Theorem strip_keeps_hits (line : string) :
  (∀ m, m ∈ Re.findall_article (Str.strip line)
        ↔ m ∈ Re.findall_article line)
  ∧ (∀ number, article_number number →
       Re.search_number number (Str.strip line)
       = Re.search_number number line).
Proof.
  split.
  - intros m. rewrite !findall_article_spec. split.
    + intros [Hm Hocc]. split; [done|].
      destruct (article_number_word m Hm). by eapply occurs_strip.
    + intros [Hm Hocc]. split; [done|].
      destruct (article_number_word m Hm). by eapply occurs_strip.
  - intros number Hnum. destruct (article_number_word number Hnum).
    apply eq_true_iff_eq. rewrite !search_number_spec by done.
    by apply occurs_strip.
Qed.

Lemma strip_keeps_hits_witness :
  Re.search_number "100001" (Str.strip "   100001 Widget  ")
  = Re.search_number "100001" "   100001 Widget  ".
Proof.
  apply (proj2 (strip_keeps_hits "   100001 Widget  ")). by vm_compute.
Defined.

(** ** The lines that reach the report builder *)

Section RecordedLines.
Implicit Types (s m : string) (prev : option ascii).

Lemma search_six_from_unfold prev s :
  Re.search_six_from prev s
  = match Re.token_here Char.is_digit prev s with
    | Some m => Some m
    | None => match s with
              | EmptyString => None
              | String c r => Re.search_six_from (Some c) r
              end
    end.
Proof. by destruct s. Qed.

Lemma search_six_from_None s : ∀ prev pre post,
  Re.search_six_from prev s = None → s = pre +:+ post →
  Re.token_here Char.is_digit (Str.last_from prev pre) post = None.
Proof.
  induction s as [|c r IH]; intros prev pre post;
    rewrite search_six_from_unfold.
  - by intros _ [-> ->]%append_eq_nil.
  - destruct (Re.token_here Char.is_digit prev (String c r)) eqn:Htok; [done|].
    intros Hrest Heq. destruct pre as [|c' pre].
    + rewrite append_nil_l in Heq. by subst post.
    + rewrite append_cons in Heq. injection Heq as <- ->.
      exact (IH (Some c) pre post Hrest eq_refl).
Qed.

Lemma token_here_digit_article prev m rest :
  article_number m →
  Re.word_at prev = false → Re.word_at (Str.head rest) = false →
  Re.token_here Char.is_digit prev (m +:+ rest) = Some m.
Proof.
  intros (Hlen & Hdig & Hhd) Hprev Hnext.
  destruct (length_six m Hlen) as (c0 & c1 & c2 & c3 & c4 & c5 & ->).
  simpl in Hhd. injection Hhd as ->.
  simpl in Hdig. repeat (apply andb_true_iff in Hdig as [? Hdig]).
  rewrite !append_cons, append_nil_l. unfold Re.token_here, Re.boundary.
  rewrite Hprev, Hnext. simpl Re.word_at.
  rewrite (digit_is_word c5) by done.
  change (Char.is_word "1") with true.
  by repeat match goal with H : Char.is_digit _ = true |- _ =>
    rewrite H; clear H end.
Qed.

(** A line in which an article number stands has a six-digit run. *)
Lemma search_six_article m line :
  article_number m → occurs_between Re.word_at m line →
  Re.search_six line ≠ None.
Proof.
  intros Hm (pre & post & -> & Hpre & Hpost) Hnone.
  apply (search_six_from_None _ None pre (m +:+ post)) in Hnone; [|done].
  by rewrite token_here_digit_article in Hnone.
Qed.

End RecordedLines.

(** X13: every line that the matcher records still shows, stripped as it is,
    one of the found numbers to the article pattern, so the report builder
    finds a six-digit run in it and never sorts it by the infinite key. *)
Theorem recorded_line_holds_found_number (article_numbers : list string)
    (folder_path : folder) (source_pdf_name : string) (st : search) :
  Forall article_number article_numbers →
  find_matching_descriptions article_numbers folder_path source_pdf_name
  = Returned st →
  ∀ l, l ∈ matches st →
    (∃ n, n ∈ found_articles st ∧ n ∈ Re.findall_article l)
    ∧ get_article_number l ≠ KInf.
Proof.
  intros Hart Hrun l Hl. rewrite Forall_forall in Hart.
  assert (recorded_from article_numbers
            (folder_lines source_pdf_name folder_path) st) as [Hfound Hrec].
  { eapply scan_folder_recorded; [done|exact Hrun|].
    split; simpl; [set_solver|]. by intros ? ?%elem_of_nil. }
  destruct (Hrec l Hl) as (line & n & _ & -> & Hn & Hhit).
  assert (article_number n) as Hnum by (by apply Hart, Hfound).
  destruct (article_number_word n Hnum) as [Hne Hword].
  assert (occurs_between Re.word_at n (Str.strip line)) as Hocc.
  { apply occurs_strip; [done..|]. by apply search_number_spec. }
  split.
  - exists n. split; [done|]. by apply findall_article_spec.
  - unfold get_article_number.
    pose proof (search_six_article n _ Hnum Hocc).
    by destruct (Re.search_six (Str.strip line)).
Qed.

Lemma recorded_line_holds_found_number_witness :
  (∃ n, n ∈ found_articles (Search ["Boot no. 100001"] {["100001"]})
        ∧ n ∈ Re.findall_article "Boot no. 100001")
  ∧ get_article_number "Boot no. 100001" ≠ KInf.
Proof.
  apply (recorded_line_holds_found_number ["100001"; "100002"]
           [("a.pdf", Readable [PageText "  Boot no. 100001 "])] "main_pdf.pdf").
  - repeat constructor; by vm_compute.
  - vm_compute. reflexivity.
  - left.
Defined.

(** ** Order and counts in the report *)

Section StableSortOrder.
Context {A K : Type} `{EqDecision K} (lt : K → K → bool) (key : A → K).
Hypothesis lt_irrefl : ∀ a, lt a a = false.

Lemma filter_insert_by (k : K) x l :
  filter (λ y, key y = k) (insert_by lt key x l)
  = filter (λ y, key y = k) (x :: l).
Proof.
  induction l as [|y l IH]; simpl; [done|].
  destruct (lt (key y) (key x)) eqn:Hlt; [|done].
  rewrite (filter_cons _ y), IH, !filter_cons.
  destruct (decide (key y = k)) as [Hy|]; [|done].
  destruct (decide (key x = k)) as [Hx|]; [|done].
  rewrite Hy, Hx, lt_irrefl in Hlt. done.
Qed.

Lemma filter_sorted_by (k : K) l :
  filter (λ y, key y = k) (sorted_by lt key l) = filter (λ y, key y = k) l.
Proof.
  induction l as [|x l IH]; simpl; [done|].
  by rewrite filter_insert_by, !filter_cons, IH.
Qed.

End StableSortOrder.

Lemma length_filter_split {A : Type} (P : A → Prop) `{∀ x, Decision (P x)}
    (l : list A) :
  length l = (length (filter P l) + length (filter (λ x, ¬ P x) l))%nat.
Proof.
  induction l as [|x l IH]; [done|]. rewrite !filter_cons. simpl.
  destruct (decide (P x)).
  - rewrite decide_False by auto. simpl. lia.
  - rewrite decide_True by done. simpl. lia.
Qed.

Lemma matched_numbers_size (lines : list string) :
  (size (matched_numbers lines) ≤ length lines)%nat.
Proof.
  unfold matched_numbers. rewrite matched_numbers_from.
  rewrite (left_id_L ∅ (∪)).
  etrans; [apply size_list_to_set_le|].
  induction lines as [|line lines IH]; [done|]. simpl.
  destruct (Re.search_six line); simpl;
    [apply le_n_S, IH|apply Nat.le_le_succ_r, IH].
Qed.

(** X14: the sort of the report is stable: the lines of one sort key stand
    in the report in the order in which the matcher recorded them. *)
Theorem report_keeps_order_of_equal_keys (matches : list string)
    (found_articles : gset string) (k : sort_key) :
  filter (λ line, get_article_number line = k)
         (sorted_matches matches found_articles)
  = filter (λ line, get_article_number line = k)
           (filtered_matches matches found_articles).
Proof.
  apply filter_sorted_by. intros [a|]; [apply N.ltb_irrefl|done].
Qed.

(** X15: no article number goes unaccounted for: the number of recorded
    lines and the number of entries of [not_found] add up to the number of
    article numbers at least. *)
Theorem shown_counts_cover_article_numbers (matches article_numbers : list string)
    (found_articles : gset string) :
  NoDup article_numbers →
  (length article_numbers
   ≤ length matches
     + length (unmatched article_numbers
                 (matched_numbers (sorted_matches matches found_articles))))%nat.
Proof.
  intros Hnd.
  set (M := matched_numbers (sorted_matches matches found_articles)).
  rewrite (length_filter_split (λ x, x ∈ M) article_numbers).
  assert (length (unmatched article_numbers M)
          = length (filter (λ x, x ∉ M) article_numbers)) as ->.
  { unfold unmatched. rewrite (Permutation_length (sorted_by_Permutation _ _ _)).
    f_equal. apply list_filter_iff. intros x. by rewrite bool_decide_spec. }
  apply Nat.add_le_mono_r.
  rewrite <- (size_list_to_set (C:=gset string)) by (by apply NoDup_filter).
  etrans; [apply subseteq_size|].
  { intros x [? _]%elem_of_list_to_set%list_elem_of_filter. done. }
  etrans; [apply matched_numbers_size|].
  unfold sorted_matches, filtered_matches.
  rewrite (Permutation_length (sorted_by_Permutation _ _ _)).
  apply length_filter.
Qed.

Lemma shown_counts_cover_article_numbers_witness :
  (length ["100001"; "100002"; "100003"]
   ≤ length ["100001 100002 pair"]
     + length (unmatched ["100001"; "100002"; "100003"]
                 (matched_numbers
                    (sorted_matches ["100001 100002 pair"] {["100001"]}))))%nat.
Proof.
  apply shown_counts_cover_article_numbers. compute_done.
Defined.

(** ** Numbers that no candidate document holds *)

Section FirstRun.
Implicit Types (s m : string) (prev : option ascii).

Lemma token_here_digit_inv prev s m :
  Re.token_here Char.is_digit prev s = Some m →
  ∃ rest, s = m +:+ rest
          ∧ Re.word_at prev = false ∧ Re.word_at (Str.head rest) = false.
Proof.
  intros Htok. unfold Re.token_here in Htok.
  do 6 (destruct s as [|? s]; [discriminate Htok|]).
  match type of Htok with (if ?b then _ else _) = _ =>
    destruct b eqn:Hb; [|discriminate Htok] end.
  injection Htok as <-.
  repeat (apply andb_true_iff in Hb as [Hb ?]).
  unfold Re.boundary in *. simpl Re.word_at in *.
  repeat match goal with
         | H : Char.is_digit ?a = true, H' : context [Char.is_word ?a] |- _ =>
             rewrite (digit_is_word a H) in H'
         end.
  exists s. split_and!; [done| |].
  - by destruct (Re.word_at prev).
  - by destruct (Re.word_at (Str.head s)).
Qed.

Lemma search_six_from_Some s : ∀ prev m,
  Re.search_six_from prev s = Some m →
  ∃ pre post, s = pre +:+ post
              ∧ Re.token_here Char.is_digit (Str.last_from prev pre) post
                = Some m.
Proof.
  induction s as [|c r IH]; intros prev m; rewrite search_six_from_unfold.
  - done.
  - destruct (Re.token_here Char.is_digit prev (String c r)) as [m0|] eqn:Htok.
    + intros [= <-]. by exists "", (String c r).
    + intros (pre & post & -> & ?)%IH. by exists (String c pre), post.
Qed.

(** The first six-digit run of a line stands in it between non-word
    characters or line ends. *)
Lemma search_six_occurs line m :
  Re.search_six line = Some m → occurs_between Re.word_at m line.
Proof.
  intros (pre & post & -> & Htok)%search_six_from_Some.
  apply token_here_digit_inv in Htok as (rest & -> & ? & ?).
  by exists pre, rest.
Qed.

End FirstRun.

(** X16: an article number that hits no line of the candidate documents is
    not found and is listed in [not_found], whatever the report shows. *)
Theorem absent_number_is_listed (article_numbers : list string)
    (folder_path : folder) (source_pdf_name : string) (st : search)
    (n : string) :
  find_matching_descriptions article_numbers folder_path source_pdf_name
  = Returned st →
  n ∈ article_numbers → article_number n →
  ¬ hit_in (folder_lines source_pdf_name folder_path) n →
  (n ∉ found_articles st)
  ∧ n ∈ unmatched article_numbers
          (matched_numbers (sorted_matches (matches st) (found_articles st))).
Proof.
  intros Hrun Hin Hnum Habsent.
  assert (recorded_from article_numbers
            (folder_lines source_pdf_name folder_path) st) as [Hfound Hrec].
  { eapply scan_folder_recorded; [done|exact Hrun|].
    split; simpl; [set_solver|]. by intros ? ?%elem_of_nil. }
  split; [by intros [_ ?]%Hfound|].
  apply elem_of_unmatched. split; [done|].
  intros (l & [Hl _]%elem_of_sorted_matches & Hsix)%elem_of_matched_numbers.
  destruct (Hrec l Hl) as (line & n' & Hline & -> & _ & _).
  apply Habsent. exists line. split; [done|].
  destruct (article_number_word n Hnum) as [Hne Hword].
  apply search_number_spec; [done..|].
  eapply occurs_strip; [done..|]. by apply search_six_occurs.
Qed.

Lemma absent_number_is_listed_witness :
  ("100003" ∉ found_articles (Search ["100001 Widget"] {["100001"]}))
  ∧ "100003"
    ∈ unmatched ["100001"; "100003"]
        (matched_numbers
           (sorted_matches (matches (Search ["100001 Widget"] {["100001"]}))
              (found_articles (Search ["100001 Widget"] {["100001"]})))).
Proof.
  apply (absent_number_is_listed ["100001"; "100003"]
           [("a.pdf", Readable [PageText "100001 Widget"; PageText "1000031"])]
           "main_pdf.pdf").
  - vm_compute. reflexivity.
  - right. left.
  - by vm_compute.
  - intros (line & Hline & Hhit). simpl in Hline.
    repeat (apply elem_of_cons in Hline as [->|Hline]);
      [discriminate Hhit..|by apply elem_of_nil in Hline].
Defined.

(** ** The sort key and the leftmost run of six digits *)

Section SortKey.
Implicit Types (s m line pre post : string) (prev : option ascii).

Lemma token_here_digit_iff prev s m :
  Re.token_here Char.is_digit prev s = Some m ↔
  six_digits m
  ∧ ∃ rest, s = m +:+ rest
            ∧ Re.word_at prev = false ∧ Re.word_at (Str.head rest) = false.
Proof.
  split.
  - intros Htok. split; [|by apply token_here_digit_inv].
    unfold Re.token_here in Htok.
    do 6 (destruct s as [|? s]; [discriminate Htok|]).
    match type of Htok with (if ?b then _ else _) = _ =>
      destruct b eqn:Hb; [|discriminate Htok] end.
    injection Htok as <-.
    repeat (apply andb_true_iff in Hb as [Hb ?]).
    split; [done|]. simpl.
    by repeat match goal with H : Char.is_digit _ = true |- _ =>
      rewrite H; clear H end.
  - intros [[Hlen Hdig] (rest & -> & Hprev & Hnext)].
    destruct (length_six m Hlen) as (c0 & c1 & c2 & c3 & c4 & c5 & ->).
    simpl in Hdig. repeat (apply andb_true_iff in Hdig as [? Hdig]).
    rewrite !append_cons, append_nil_l. unfold Re.token_here, Re.boundary.
    rewrite Hprev, Hnext. simpl Re.word_at.
    rewrite (digit_is_word c0), (digit_is_word c5) by done.
    by repeat match goal with H : Char.is_digit _ = true |- _ =>
      rewrite H; clear H end.
Qed.

(** The search returns the token at the leftmost position that has one. *)
Lemma search_six_from_first s : ∀ prev m,
  Re.search_six_from prev s = Some m →
  ∃ pre post,
    s = pre +:+ post
    ∧ Re.token_here Char.is_digit (Str.last_from prev pre) post = Some m
    ∧ ∀ pre' post', s = pre' +:+ post' →
        (String.length pre' < String.length pre)%nat →
        Re.token_here Char.is_digit (Str.last_from prev pre') post' = None.
Proof.
  induction s as [|c r IH]; intros prev m; rewrite search_six_from_unfold.
  - done.
  - destruct (Re.token_here Char.is_digit prev (String c r)) as [m0|] eqn:Htok.
    + intros [= <-]. exists "", (String c r). split_and!; [done..|].
      intros pre' post' _ Hlt. simpl in Hlt. lia.
    + intros (pre & post & -> & Hhere & Hfirst)%IH.
      exists (String c pre), post. split_and!; [done..|].
      intros [|c' pre'] post' Heq Hlt.
      * rewrite append_nil_l in Heq. by subst post'.
      * rewrite !append_cons in Heq. injection Heq as <- Heq.
        apply (Hfirst pre' post' Heq). simpl in Hlt. lia.
Qed.

Lemma append_same_length pre : ∀ pre' s t,
  pre +:+ s = pre' +:+ t → String.length pre = String.length pre' →
  pre = pre' ∧ s = t.
Proof.
  induction pre as [|c pre IH]; intros [|c' pre'] s t Heq Hlen;
    try discriminate Hlen; [done|].
  rewrite !append_cons in Heq. injection Heq as -> Heq.
  simpl in Hlen. by destruct (IH pre' s t Heq ltac:(lia)) as [-> ->].
Qed.

Lemma first_six_run_unique line m m' :
  first_six_run line m → first_six_run line m' → m = m'.
Proof.
  intros (pre & Hrun & Hmin) (pre' & Hrun' & Hmin').
  pose proof (Hmin _ _ Hrun'). pose proof (Hmin' _ _ Hrun).
  destruct Hrun as [[Hlen _] (post & -> & _)].
  destruct Hrun' as [[Hlen' _] (post' & Heq & _)].
  apply append_same_length in Heq as [_ Heq]; [|lia].
  by apply append_same_length in Heq as [? _]; [|congruence].
Qed.

Lemma first_six_run_not_none line m :
  first_six_run line m → ¬ no_six_run line.
Proof. intros (pre & Hrun & _) Hnone. by apply (Hnone pre m). Qed.

(** What [re.search] with the six-digit pattern returns is the leftmost
    bounded run of six digits. *)
Lemma search_six_Some line m :
  Re.search_six line = Some m → first_six_run line m.
Proof.
  intros (pre & post & -> & Hhere & Hfirst)%search_six_from_first.
  apply token_here_digit_iff in Hhere as [Hsix (rest & -> & Hprev & Hnext)].
  exists pre. split; [split; [done|by exists rest]|].
  intros pre' m' [Hsix' (post' & Heq & Hprev' & Hnext')].
  destruct (Nat.le_gt_cases (String.length pre) (String.length pre'))
    as [|Hlt]; [done|].
  specialize (Hfirst pre' (m' +:+ post') Heq Hlt).
  rewrite (proj2 (token_here_digit_iff _ _ m')) in Hfirst; [done|].
  split; [done|by exists post'].
Qed.

Lemma search_six_None line :
  Re.search_six line = None → no_six_run line.
Proof.
  intros Hnone pre m [Hsix (post & -> & Hprev & Hnext)].
  apply (search_six_from_None _ None pre (m +:+ post)) in Hnone; [|done].
  rewrite (proj2 (token_here_digit_iff _ _ m)) in Hnone; [done|].
  split; [done|by exists post].
Qed.

Lemma search_six_first_run line m :
  Re.search_six line = Some m ↔ first_six_run line m.
Proof.
  split; [apply search_six_Some|]. intros Hfirst.
  destruct (Re.search_six line) as [m0|] eqn:Hsix.
  - f_equal. eapply first_six_run_unique; [|done]. by apply search_six_Some.
  - by apply search_six_None, (first_six_run_not_none _ m) in Hsix.
Qed.

Lemma digit_value_digit_of c :
  Char.is_digit c = true → Char.digit_value c = digit_of c.
Proof. destruct c as [[] [] [] [] [] [] [] []]; vm_compute; congruence. Qed.

Lemma int_from_decimal s : ∀ acc,
  Str.all_chars Char.is_digit s = true →
  Str.int_from acc s = acc * 10 ^ N.of_nat (String.length s) + decimal_value s.
Proof.
  induction s as [|c r IH]; intros acc; simpl String.length.
  - intros _. simpl. lia.
  - intros [Hc Hr]%andb_true_iff. simpl Str.int_from. simpl decimal_value.
    rewrite IH, (digit_value_digit_of c), Nat2N.inj_succ, N.pow_succ_r'
      by done.
    lia.
Qed.

(** [int] of a string of digits is the number it spells. *)
Lemma int_decimal m :
  Str.all_chars Char.is_digit m = true → Str.int m = decimal_value m.
Proof. intros Hdig. unfold Str.int. rewrite int_from_decimal by done. lia. Qed.

(** The sort key of a line: the number that its leftmost bounded run of six
    digits spells, and the infinite key if it has no such run. *)
Lemma get_article_number_first_run line m :
  first_six_run line m → get_article_number line = KInt (decimal_value m).
Proof.
  intros Hfirst. unfold get_article_number.
  rewrite (proj2 (search_six_first_run line m) Hfirst).
  destruct Hfirst as (pre & [[_ Hdig] _] & _). by rewrite int_decimal.
Qed.

Lemma get_article_number_no_run line :
  no_six_run line ↔ get_article_number line = KInf.
Proof.
  unfold get_article_number. split.
  - intros Hnone. destruct (Re.search_six line) as [m|] eqn:Hsix; [|done].
    by apply search_six_Some, first_six_run_not_none in Hsix.
  - destruct (Re.search_six line) eqn:Hsix; [done|].
    intros _. by apply search_six_None.
Qed.

Lemma line_order_report_order l1 l2 : line_order l1 l2 → report_order l1 l2.
Proof.
  unfold line_order, report_order.
  destruct (Re.search_six l1) as [m1|] eqn:H1,
           (Re.search_six l2) as [m2|] eqn:H2; intros Hord.
  - pose proof (search_six_Some _ _ H1) as Hf1.
    pose proof (search_six_Some _ _ H2) as Hf2.
    left. exists m1, m2. split_and!; [done..|].
    destruct Hf1 as (? & [[_ ?] _] & _). destruct Hf2 as (? & [[_ ?] _] & _).
    by rewrite <- !int_decimal.
  - right. left. exists m1. split; [by apply search_six_Some|].
    by apply search_six_None.
  - done.
  - right. right. split; by apply search_six_None.
Qed.

End SortKey.

(** C6: the body paragraphs of the written report are the filtered lines,
    rearranged so that from each line to each later one the numbers spelled
    by their first six-digit runs do not decrease, and no line without such a
    run stands before a line with one.  The first six-digit run is the
    leftmost run of six digits that has no word character next to it; the
    sort key of a line is the number which that run spells in base ten, and
    the infinite key exactly if the line has no such run. *)
Theorem sorted_matches_ascending (matches article_numbers : list string)
    (found_articles : gset string) (output_path : string) (w : world) :
  let sorted := sorted_matches matches found_articles in
  (∃ ops,
     files (save_to_pdf matches article_numbers found_articles
              output_path w).2 !! output_path = Some ops
     ∧ body_lines ops = sorted)
  ∧ sorted ≡ₚ filtered_matches matches found_articles
  ∧ ascending line_order sorted
  ∧ ascending report_order sorted
  ∧ (∀ line m, first_six_run line m →
       get_article_number line = KInt (decimal_value m))
  ∧ (∀ line, no_six_run line ↔ get_article_number line = KInf)
  ∧ (∀ line, (∃ m, first_six_run line m) ∨ no_six_run line).
Proof.
  intros sorted.
  assert (ascending line_order sorted) as Hasc.
  { eapply ascending_impl; [intros x y; apply not_after_line_order|].
    apply StronglySorted_ascending, sorted_by_StronglySorted.
    - apply key_lt_asym.
    - apply key_lt_not_trans. }
  split_and!.
  - eexists. split; [apply lookup_insert_eq|apply body_lines_render].
  - apply sorted_by_Permutation.
  - done.
  - eapply ascending_impl; [apply line_order_report_order|done].
  - apply get_article_number_first_run.
  - apply get_article_number_no_run.
  - intros line. destruct (Re.search_six line) as [m|] eqn:Hsix.
    + left. exists m. by apply search_six_Some.
    + right. by apply search_six_None.
Qed.

Lemma sorted_matches_ascending_witness :
  get_article_number "Clog 150002, size 100001" = KInt 150002.
Proof.
  apply (proj1 (proj2 (proj2 (proj2 (proj2
           (sorted_matches_ascending [] [] ∅ "matched_frames.pdf"
              (World None ∅)))))) _ "150002").
  exists "Clog ". split.
  - split; [by vm_compute|]. by exists ", size 100001".
  - intros pre' m' [[Hlen Hdig] (post' & Heq & Hprev & Hnext)].
    destruct (Nat.le_gt_cases (String.length "Clog ") (String.length pre'))
      as [|Hlt]; [done|]. exfalso.
    destruct (length_six m' Hlen) as (c0 & c1 & c2 & c3 & c4 & c5 & ->).
    simpl in Hdig. apply andb_true_iff in Hdig as [Hc0 _].
    do 5 (destruct pre' as [|? pre'];
          [rewrite append_nil_l, !append_cons in Heq; injection Heq as <-;
           discriminate Hc0
          |rewrite append_cons in Heq; injection Heq as <- Heq]).
    simpl in Hlt. lia.
Defined.
